(** * Weather Dashboard (run.py): a shallow embedding and its properties

    The program loads a CSV table, guesses which columns hold temperature,
    humidity and the time axis, converts Fahrenheit to Celsius, drops the rows
    with nothing to plot, shows three statistics and offers the processed
    table for download.

    How the program is modelled:
    - Python's [int] is [Z], [str] is [string] (its bytes), a list is [list],
      an exception is the [Raise] of a [result].
    - A number is an IEEE 754 binary64 value ([PrimFloat.float]), the dtype
      pandas gives a column with missing entries; the missing marker is NaN.
      A column of integers is modelled by its float64 values.
    - A table is the ordered list of its named columns; an assignment to a
      column replaces it in place or appends it, as pandas does.
    - The page is the list of what it shows, in order, from the point where
      the table is loaded; [st.stop()] ends the list.
    - What pandas and Python do behind a call is a parameter where it is a
      parser, a writer or a summation order ([str.lower], the number parser
      of [pd.to_numeric], [pd.to_datetime], which can raise, [ndarray.sum],
      [to_csv]), and is written out where it is structural (column access
      and assignment, [dropna], boolean indexing, how the reductions treat
      NaN). *)

From Stdlib Require Import List String Ascii Bool ZArith Lia Arith.
From Stdlib Require Import Floats.
Import ListNotations.

Open Scope string_scope.
Open Scope list_scope.

(** ** Python exceptions *)

Inductive exn : Type :=
| ValueError
| TypeError
| KeyError (name : string).

Inductive result (A : Type) : Type :=
| Ok (a : A)
| Raise (e : exn).

Arguments Ok {A} a.
Arguments Raise {A} e.

Definition bind {A B : Type} (m : result A) (k : A -> result B) : result B :=
  match m with
  | Ok a => k a
  | Raise e => Raise e
  end.

(** [try: body except Exception: handler] *)
Definition try_except {A : Type} (body : result A) (handler : exn -> result A)
  : result A :=
  match body with
  | Ok a => Ok a
  | Raise e => handler e
  end.

Notation "x <- m ;; k" := (bind m (fun x => k))
  (at level 61, m at next level, right associativity).

(** ** Strings: [sub in name] *)

Module Str.

(** [starts_with sub s]: [s] begins with [sub]. *)
Fixpoint starts_with (sub s : string) : bool :=
  match sub, s with
  | EmptyString, _ => true
  | String _ _, EmptyString => false
  | String a sub', String b s' => Ascii.eqb a b && starts_with sub' s'
  end.

(** Python's [sub in s]: [sub] occurs in [s] at some position. *)
Fixpoint contains (sub s : string) : bool :=
  starts_with sub s ||
  match s with
  | EmptyString => false
  | String _ s' => contains sub s'
  end.

(** ASCII lowering of one character; the other bytes are left alone. *)
Definition lower_ascii (c : ascii) : ascii :=
  let n := nat_of_ascii c in
  if (65 <=? n)%nat && (n <=? 90)%nat then ascii_of_nat (n + 32) else c.

(** [str.lower] on ASCII text. *)
Fixpoint ascii_lower (s : string) : string :=
  match s with
  | EmptyString => EmptyString
  | String c s' => String (lower_ascii c) (ascii_lower s')
  end.

End Str.

(** ** Helpers of the sidebar *)

Section ColumnGuess.

(** [str.lower]: Python lowers by the Unicode tables; the resolver only needs
    some lowering function, so it is a parameter here ([Str.ascii_lower] is
    its restriction to ASCII names). *)
Variable lower : string -> string.

(** The inner loop [for i, name in enumerate(lowered): if sub in name]:
    the first index from [i] on whose name contains [sub]. *)
Fixpoint first_index_from (sub : string) (lowered : list string) (i : nat)
  : option nat :=
  match lowered with
  | [] => None
  | name :: rest =>
      if Str.contains sub name then Some i
      else first_index_from sub rest (S i)
  end.

(** The outer loop [for sub in substrings]; [cols[i]] is [nth_error cols i],
    [return None] after the loops. *)
Fixpoint first_match_loop (cols lowered : list string) (substrings : list string)
  : option string :=
  match substrings with
  | [] => None
  | sub :: rest =>
      match first_index_from sub lowered 0 with
      | Some i => nth_error cols i
      | None => first_match_loop cols lowered rest
      end
  end.

Definition first_match (cols : list string) (substrings : list string)
  : option string :=
  let lowered := map lower cols in
  first_match_loop cols lowered substrings.

End ColumnGuess.

(** [options.index(value)]: position of the first equal item, [ValueError]
    when there is none. *)
Fixpoint list_index (options : list string) (value : string) : result Z :=
  match options with
  | [] => Raise ValueError
  | o :: rest =>
      if String.eqb o value then Ok 0%Z
      else i <- list_index rest value ;; Ok (1 + i)%Z
  end.

(** [safe_index(options, value, offset=0, fallback=0)]; [value] is [None] or a
    column name, [int(n)] of an [int] is [n]. *)
Definition safe_index (options : list string) (value : option string)
  (offset fallback : Z) : result Z :=
  try_except
    (match value with
     | None => Ok fallback
     | Some v => i <- list_index options v ;; Ok (offset + i)%Z
     end)
    (fun _ => Ok fallback).

(** ** Tables

    A column is a pandas Series: [float64] values, where NaN marks a missing
    entry, or [object] items, each a text or a float (the NaN that the CSV
    reader puts in an empty field). A table keeps its columns in order. *)

Inductive item : Type :=
| Str (s : string)
| Flt (x : float).

Inductive series : Type :=
| Float64 (v : list float)
| Object (v : list item).

Definition table : Type := list (string * series).

Definition items (s : series) : list item :=
  match s with
  | Float64 v => map Flt v
  | Object v => v
  end.

Definition series_len (s : series) : nat := List.length (items s).

(** [list(df.columns)] *)
Definition columns (t : table) : list string := map fst t.

(** [len(df)]: every column of a table has the same length. *)
Definition nrows (t : table) : nat :=
  match t with
  | [] => 0
  | (_, s) :: _ => series_len s
  end.

(** [df.empty]: some axis has length zero. *)
Definition df_empty (t : table) : bool :=
  (List.length t =? 0)%nat || (nrows t =? 0)%nat.

(** [t[name]] *)
Fixpoint get_col (name : string) (t : table) : result series :=
  match t with
  | [] => Raise (KeyError name)
  | (n, s) :: rest => if String.eqb n name then Ok s else get_col name rest
  end.

(** [t[name] = s]: replaces the column of that name where it stands, appends
    a new last column otherwise. *)
Fixpoint set_col (name : string) (s : series) (t : table) : table :=
  match t with
  | [] => [(name, s)]
  | (n, s0) :: rest =>
      if String.eqb n name then (n, s) :: rest
      else (n, s0) :: set_col name s rest
  end.

(** [isna] of one entry. *)
Definition item_isna (x : item) : bool :=
  match x with
  | Str _ => false
  | Flt f => PrimFloat.is_nan f
  end.

(** Boolean indexing: the entries of [l] at which [mask] is true. *)
Fixpoint select {A : Type} (mask : list bool) (l : list A) : list A :=
  match mask, l with
  | b :: mask', x :: l' => if b then x :: select mask' l' else select mask' l'
  | _, _ => []
  end.

Definition series_select (mask : list bool) (s : series) : series :=
  match s with
  | Float64 v => Float64 (select mask v)
  | Object v => Object (select mask v)
  end.

(** [s.dropna()] *)
Definition series_dropna (s : series) : series :=
  series_select (map (fun x => negb (item_isna x)) (items s)) s.

(** Element-wise arithmetic; on a text column Python raises [TypeError]. *)
Definition series_arith (f : float -> float) (s : series) : result series :=
  match s with
  | Float64 v => Ok (Float64 (map f v))
  | Object _ => Raise TypeError
  end.

(** The numbers of a numeric column, for the reductions [mean], [min], [max]. *)
Definition float_values (s : series) : result (list float) :=
  match s with
  | Float64 v => Ok v
  | Object _ => Raise TypeError
  end.

(** ** The plotting frame

    A frame is a table with an index: one label per row, the row number by
    default, or the entries of the X-axis column: a timestamp, the entry as
    loaded, or the missing marker of the index (NaT). *)

Inductive label : Type :=
| Row (i : nat)
| Time (t : Z)
| Raw (x : item)
| Missing.

Record frame : Type := mkFrame {
  index : list label;
  index_name : option string;
  data : table
}.

(** [pd.DataFrame({name: s})]: one column over the default index. *)
Definition new_frame (name : string) (s : series) : frame :=
  {| index := map Row (seq 0 (series_len s));
     index_name := None;
     data := [(name, s)] |}.

(** [f[name] = s] *)
Definition frame_set_col (name : string) (s : series) (f : frame) : frame :=
  {| index := index f; index_name := index_name f;
     data := set_col name s (data f) |}.

(** [f.index = idx; f.index.name = name] *)
Definition with_index (idx : list label) (name : string) (f : frame) : frame :=
  {| index := idx; index_name := Some name; data := data f |}.

Definition frame_nrows (f : frame) : nat := List.length (index f).

(** [f.empty] *)
Definition frame_empty (f : frame) : bool :=
  (List.length (data f) =? 0)%nat || (frame_nrows f =? 0)%nat.

(** Whether row [i] of column [s] is missing. *)
Definition entry_isna (s : series) (i : nat) : bool :=
  match nth_error (items s) i with
  | Some x => item_isna x
  | None => true
  end.

(** Whether every column is missing at row [i]. *)
Definition row_all_na (t : table) (i : nat) : bool :=
  forallb (fun c => entry_isna (snd c) i) t.

(** The rows [dropna(how="all")] keeps. *)
Definition keep_mask (f : frame) : list bool :=
  map (fun i => negb (row_all_na (data f) i)) (seq 0 (frame_nrows f)).

(** [f.dropna(how="all")] *)
Definition dropna_all (f : frame) : frame :=
  let mask := keep_mask f in
  {| index := select mask (index f);
     index_name := index_name f;
     data := map (fun c => (fst c, series_select mask (snd c))) (data f) |}.

(** ** Statistics: pandas reductions skip the missing values *)

Definition dropna_values (v : list float) : list float :=
  filter (fun x => negb (PrimFloat.is_nan x)) v.

Definition float_of_nat (n : nat) : float :=
  PrimFloat.of_uint63 (Uint63.of_Z (Z.of_nat n)).

(** A sum taken left to right from zero: one order a summation can have. *)
Definition fsum (v : list float) : float :=
  fold_left PrimFloat.add v 0%float.

(** The array [s.mean()] sums: the values with 0 in place of the missing. *)
Definition fillna_zero (v : list float) : list float :=
  map (fun x => if PrimFloat.is_nan x then 0%float else x) v.

(** [np.minimum] and [np.maximum] in a reduction: the running value stays
    only when it is strictly below (above) the next one. *)
Definition fmin (x y : float) : float := if (x <? y)%float then x else y.
Definition fmax (x y : float) : float := if (y <? x)%float then x else y.

(** [s.mean()]: the sum of the filled values, by [ndarray.sum], over the
    count of the values that are there; NaN when there is none. *)
Definition mean (np_sum : list float -> float) (v : list float) : float :=
  let count := List.length (dropna_values v) in
  if (count =? 0)%nat then PrimFloat.nan
  else (np_sum (fillna_zero v) / float_of_nat count)%float.

(** [s.min()] *)
Definition smin (v : list float) : float :=
  match dropna_values v with
  | [] => PrimFloat.nan
  | x :: xs => fold_left fmin xs x
  end.

(** [s.max()] *)
Definition smax (v : list float) : float :=
  match dropna_values v with
  | [] => PrimFloat.nan
  | x :: xs => fold_left fmax xs x
  end.

(** ** The page *)

(** What the sidebar's select boxes return. *)
Record selection : Type := mkSelection {
  temp_col : string;
  hum_col : string;
  unit : string;
  x_col : string
}.

Record download : Type := mkDownload {
  button_label : string;
  file_data : string;
  file_name : string;
  mime : string
}.

(** What the page shows after the table is loaded. A metric carries the number
    that the page formats with one decimal. *)
Inductive ui_event : Type :=
| Warning (msg : string)
| Error (msg : string)
| Metric (name : string) (value : float)
| LineChart (f : frame)
| DataFrameView (t : table)
| TemperatureList (values : list float)
| DownloadButton (d : download).

(** Line 42 and line 127: the two messages the page can stop with. *)
Definition empty_warning : ui_event :=
  Warning "Your CSV appears to be empty.".
Definition no_data_error : ui_event :=
  Error "No valid temperature data after cleaning. Please check column selection and units.".

(** [(f - 32) * 5.0 / 9.0] *)
Definition fahrenheit_to_celsius (f : float) : float :=
  ((f - 32) * 5 / 9)%float.

Section Session.

(** The numeric parser behind [pd.to_numeric]: the number a text denotes,
    if any. *)
Variable parse_number : string -> option float.

(** [pd.to_datetime(s, errors="coerce")]: it raises (on texts with mixed
    UTC offsets, for one), or returns for each row [i] the timestamp or
    nothing (NaT). *)
Variable to_datetime : series -> result (nat -> option Z).

(** [ndarray.sum] of a float64 array; numpy chooses the order of the
    additions. *)
Variable np_sum : list float -> float.

(** [t.to_csv(buf, index=False); buf.getvalue()] *)
Variable to_csv : table -> string.

Definition coerce_item (x : item) : float :=
  match x with
  | Flt f => f
  | Str s =>
      match parse_number s with
      | Some f => f
      | None => PrimFloat.nan
      end
  end.

(** [pd.to_numeric(s, errors="coerce")] *)
Definition to_numeric (s : series) : series :=
  match s with
  | Float64 v => Float64 v
  | Object v => Float64 (map coerce_item v)
  end.

(** Lines 97-108: the working table. *)
Definition prepare (df : table) (sel : selection) : result table :=
  let work := df in
  t <- get_col (temp_col sel) work ;;
  let work := set_col (temp_col sel) (to_numeric t) work in
  work <- (if negb (hum_col sel =? "<none>")
           then h <- get_col (hum_col sel) work ;;
                Ok (set_col (hum_col sel) (to_numeric h) work)
           else Ok work) ;;
  t <- get_col (temp_col sel) work ;;
  if unit sel =? "°F"
  then c <- series_arith fahrenheit_to_celsius t ;;
       Ok (set_col "Temperature_C" c work)
  else Ok (set_col "Temperature_C" t work).

(** [parsed.where(parsed.notna(), work[x_col])]: the timestamp where there
    is one, the entry of the column elsewhere, which is the missing marker
    when the entry is missing. *)
Definition x_index (parsed : nat -> option Z) (x : series) : list label :=
  map (fun p =>
         match parsed (fst p) with
         | Some t => Time t
         | None => if item_isna (snd p) then Missing else Raw (snd p)
         end)
      (combine (seq 0 (series_len x)) (items x)).

(** Lines 111-121: the frame before rows are dropped. *)
Definition build_plot (work : table) (sel : selection) : result frame :=
  tc <- get_col "Temperature_C" work ;;
  let plot_df := new_frame "Temperature (°C)" tc in
  plot_df <- (if negb (hum_col sel =? "<none>")
              then h <- get_col (hum_col sel) work ;;
                   Ok (frame_set_col "Humidity (%)" h plot_df)
              else Ok plot_df) ;;
  if negb (x_col sel =? "<index>")
  then x <- get_col (x_col sel) work ;;
       parsed <- to_datetime x ;;
       Ok (with_index (x_index parsed x) (x_col sel) plot_df)
  else Ok plot_df.

(** Lines 165-174: the table that is written out, and the button. *)
Definition export_table (work : table) : result table :=
  let out := work in
  tc <- get_col "Temperature_C" out ;;
  Ok (set_col "Temperature (°C)" tc out).

Definition download_button (out : table) : download :=
  {| button_label := "Download CSV (with Temperature °C)";
     file_data := to_csv out;
     file_name := "weather_processed.csv";
     mime := "text/csv" |}.

(** Lines 133-174: the page when there is data to show. *)
Definition dashboard (temps : list float) (plot_df : frame) (work out : table)
  : list ui_event :=
  let avg_temp := mean np_sum temps in
  let min_temp := smin temps in
  let max_temp := smax temps in
  let temp_values := dropna_values temps in
  [Metric "Average Temp (°C)" avg_temp;
   Metric "Min Temp (°C)" min_temp;
   Metric "Max Temp (°C)" max_temp;
   LineChart plot_df;
   DataFrameView work;
   TemperatureList (firstn 1000 temp_values);
   DownloadButton (download_button out)].

(** Lines 41-174: the page for a loaded table and the sidebar's choices. *)
Definition run (df : table) (sel : selection) : result (list ui_event) :=
  if df_empty df then Ok [empty_warning]
  else
    work <- prepare df sel ;;
    plot_df <- build_plot work sel ;;
    let plot_df := dropna_all plot_df in
    tc <- get_col "Temperature (°C)" (data plot_df) ;;
    if frame_empty plot_df || (series_len (series_dropna tc) =? 0)%nat
    then Ok [no_data_error]
    else
      temps <- float_values tc ;;
      out <- export_table work ;;
      Ok (dashboard temps plot_df work out).

End Session.

(** Lines 73-91: the guesses and the positions the select boxes start at. *)
Section Sidebar.

Variable lower : string -> string.

Definition temp_guess (cols : list string) : option string :=
  first_match lower cols ["temp"].
Definition hum_guess (cols : list string) : option string :=
  first_match lower cols ["hum"].
Definition x_guess (cols : list string) : option string :=
  first_match lower cols ["date"; "time"; "day"; "timestamp"].

Definition temp_idx (cols : list string) : result Z :=
  safe_index cols (temp_guess cols) 0 0.
Definition hum_idx (cols : list string) : result Z :=
  safe_index cols (hum_guess cols) 1 0.
Definition x_idx (cols : list string) : result Z :=
  safe_index cols (x_guess cols) 1 0.

End Sidebar.

(** ** Notions the properties are stated with *)

(** [sub] occurs in [s]: [s] is some text, then [sub], then some text. *)
Definition occurs_in (sub s : string) : Prop :=
  exists a b : string, s = (a ++ sub ++ b)%string.

(** A match of [sub] in [cols]: the column [c] after [c1], whose lowered
    name holds [sub], while no lowered name of [c1] does. *)
Definition first_hit (lower : string -> string) (sub : string)
  (cols : list string) (c : string) : Prop :=
  exists c1 c2,
    cols = c1 ++ c :: c2 /\ occurs_in sub (lower c) /\
    (forall c', In c' c1 -> ~ occurs_in sub (lower c')).

(** No column of [cols] matches [sub]. *)
Definition no_hit (lower : string -> string) (sub : string)
  (cols : list string) : Prop :=
  forall c, In c cols -> ~ occurs_in sub (lower c).

(** The select boxes offer the columns of the table, after the marker of "no
    column" for the two optional roles; the unit is one of two. *)
Definition valid_selection (df : table) (sel : selection) : bool :=
  existsb (String.eqb (temp_col sel)) (columns df) &&
  existsb (String.eqb (hum_col sel)) ("<none>" :: columns df) &&
  existsb (String.eqb (x_col sel)) ("<index>" :: columns df) &&
  existsb (String.eqb (unit sel)) ["°C"; "°F"].

(** Every column of a table has as many entries as the table has rows. *)
Definition table_wf (t : table) : bool :=
  forallb (fun c => (series_len (snd c) =? nrows t)%nat) t.

(** The column names after an assignment to the column [name]. *)
Definition add_name (name : string) (names : list string) : list string :=
  if existsb (fun n => String.eqb n name) names then names else names ++ [name].

(** The entries of [l] at the positions [ks]. *)
Definition pick {A : Type} (l : list A) (ks : list nat) : list A :=
  flat_map (fun k => match nth_error l k with Some x => [x] | None => [] end) ks.

Definition series_pick (s : series) (ks : list nat) : series :=
  match s with
  | Float64 v => Float64 (pick v ks)
  | Object v => Object (pick v ks)
  end.

(** The positions of the rows that [dropna(how="all")] keeps. *)
Definition kept_rows (f : frame) : list nat :=
  filter (fun i => negb (row_all_na (data f) i)) (seq 0 (frame_nrows f)).

(** The Celsius series of a coerced temperature series, lines 105-108. *)
Definition celsius_series (unit : string) (v : list float) : list float :=
  if unit =? "°F" then map fahrenheit_to_celsius v else v.

(** The numbers [pd.to_numeric] reads in a column. *)
Definition numeric_values (parse_number : string -> option float) (s : series)
  : list float :=
  map (coerce_item parse_number) (items s).

(** The table after the coercions of lines 100-102: the selected columns
    hold what [pd.to_numeric] reads in them, the others are as loaded. *)
Definition coerced_col (parse_number : string -> option float)
  (df : table) (sel : selection) (n : string)
  : result series :=
  if (n =? temp_col sel) || (negb (hum_col sel =? "<none>") && (n =? hum_col sel))
  then s <- get_col n df ;; Ok (to_numeric parse_number s)
  else get_col n df.

(** Whether every plotted series is missing at row [i]: the Celsius series
    and, when a humidity column is plotted, the humidity series. *)
Definition all_plotted_missing (tc : series) (hum : option series) (i : nat)
  : bool :=
  entry_isna tc i &&
  match hum with
  | Some h => entry_isna h i
  | None => true
  end.

(** The columns of the plotting frame. *)
Definition plotted (tc : series) (hum : option series) : table :=
  ("Temperature (°C)", tc) ::
  match hum with
  | Some h => [("Humidity (%)", h)]
  | None => []
  end.

(** A column the sidebar selected for coercion. *)
Definition selected_col (sel : selection) (n : string) : Prop :=
  n = temp_col sel \/ (hum_col sel <> "<none>" /\ n = hum_col sel).

(** Every value of the series is missing. *)
Definition all_missing (v : list float) : Prop :=
  forall f, In f v -> PrimFloat.is_nan f = true.

(** The export has the loaded columns and [Temperature (°C)], nothing else. *)
Definition export_columns_exact (parse_number : string -> option float)
  (df : table) (sel : selection) : Prop :=
  forall work out,
    prepare parse_number df sel = Ok work ->
    export_table work = Ok out ->
    columns out = columns df ++ ["Temperature (°C)"].


(** ** Sample inputs *)

(** A parser that knows two texts, a timestamp parser that knows one, and a
    writer that writes the header line only; the sum is [fsum]. *)
Definition sample_parse (s : string) : option float :=
  if s =? "50" then Some 50%float
  else if s =? "68" then Some 68%float
  else None.

Definition sample_to_datetime (x : series) : result (nat -> option Z) :=
  Ok (fun i => match nth_error (items x) i with
               | Some (Str s) =>
                   if s =? "2024-01-01" then Some 1704067200%Z else None
               | _ => None
               end).

Definition sample_to_csv (t : table) : string :=
  String.concat "," (columns t).

(** Rows [{temp: 32, hum: 50}] and [{temp: 212, hum: 10}], in Fahrenheit. *)
Definition boiling_df : table :=
  [("temp", Float64 [32; 212]%float); ("hum", Float64 [50; 10]%float)].

Definition boiling_sel : selection :=
  {| temp_col := "temp"; hum_col := "hum"; unit := "°F"; x_col := "<index>" |}.

(** A temperature column of texts that are no numbers. *)
Definition text_df : table :=
  [("temp", Object [Str "n/a"; Str "warm"]); ("hum", Float64 [50; 10]%float)].

Definition text_sel : selection :=
  {| temp_col := "temp"; hum_col := "<none>"; unit := "°C"; x_col := "<index>" |}.

(** Three rows: a temperature without humidity, a humidity without
    temperature, and nothing. *)
Definition gaps_df : table :=
  [("temp", Object [Str "50"; Flt PrimFloat.nan; Str "-"]);
   ("hum", Float64 [PrimFloat.nan; 5%float; PrimFloat.nan])].

Definition gaps_sel : selection :=
  {| temp_col := "temp"; hum_col := "hum"; unit := "°C"; x_col := "<index>" |}.


(** ** The select boxes before the user touches them *)

(** [st.sidebar.selectbox(label, options=options, index=index)] returns the
    option at [index] until the user picks another one; an index outside the
    options is refused. *)
Definition selectbox_default (options : list string) (index : Z)
  : option string :=
  if (index <? 0)%Z then None else nth_error options (Z.to_nat index).

(** Lines 77-92 with the boxes untouched: the selection the page starts with. *)
Definition default_selection (lower : string -> string) (cols : list string)
  : option selection :=
  match temp_idx lower cols, hum_idx lower cols, x_idx lower cols with
  | Ok ti, Ok hi, Ok xi =>
      match selectbox_default cols ti,
            selectbox_default ("<none>" :: cols) hi,
            selectbox_default ["°C"; "°F"] 0,
            selectbox_default ("<index>" :: cols) xi with
      | Some t, Some h, Some u, Some x =>
          Some {| temp_col := t; hum_col := h; unit := u; x_col := x |}
      | _, _, _, _ => None
      end
  | _, _, _ => None
  end.



(** The header of a sample file. *)
Definition sample_cols : list string := ["Date"; "Air Temp"; "Humidity"].

(** A table with a date column, and three selections on it. *)
Definition dated_df : table :=
  [("Date", Object [Str "2024-01-01"; Str "n/a"]);
   ("temp", Float64 [32; 212]%float);
   ("hum", Float64 [50; 10]%float)].

Definition dated_sel : selection :=
  {| temp_col := "temp"; hum_col := "hum"; unit := "°F"; x_col := "Date" |}.



(** What the page of [dated_df] shows under [dated_sel]. *)
Definition dated_events : list ui_event :=
  Eval vm_compute in
    match run sample_parse sample_to_datetime fsum sample_to_csv
              dated_df dated_sel with
    | Ok events => events
    | Raise _ => []
    end.

(** Line 118 returns: no X-axis column is chosen, or [pd.to_datetime] reads
    the chosen column of the working table without raising. *)
Definition x_parses (parse_number : string -> option float)
  (to_datetime : series -> result (nat -> option Z))
  (df : table) (sel : selection) : Prop :=
  x_col sel = "<index>" \/
  exists work x parsed,
    prepare parse_number df sel = Ok work /\
    get_col (x_col sel) work = Ok x /\
    to_datetime x = Ok parsed.



(** A timestamp parser that raises on a column with the two UTC offsets
    +01:00 and +02:00, as [pd.to_datetime] does on mixed offsets. *)
Definition has_text_with (sub : string) (x : series) : bool :=
  existsb (fun e => match e with
                    | Str s => Str.contains sub s
                    | Flt _ => false
                    end) (items x).

Definition offsets_to_datetime (x : series) : result (nat -> option Z) :=
  if has_text_with "+01:00" x && has_text_with "+02:00" x
  then Raise ValueError
  else Ok (fun _ => None).

(** A file with a time column of two UTC offsets and a temperature column
    of texts, and the selection its page starts with. *)
Definition offsets_df : table :=
  [("time", Object [Str "2024-01-01T00:00:00+01:00";
                    Str "2024-01-01T00:00:00+02:00"]);
   ("temp", Object [Str "n/a"; Str "warm"])].

Definition offsets_sel : selection :=
  {| temp_col := "temp"; hum_col := "<none>"; unit := "°C"; x_col := "time" |}.

(** * Properties *)

(** ** Substrings *)


Lemma starts_with_iff (sub s : string) :
  Str.starts_with sub s = true <-> exists b, s = (sub ++ b)%string.
Proof.
  revert s; induction sub as [|a sub IH]; intros s; simpl.
  - split; [intros _; now exists s | reflexivity].
  - destruct s as [|b s]; simpl.
    + split; [discriminate | intros [r Hr]; discriminate].
    + rewrite andb_true_iff, Ascii.eqb_eq, IH. split.
      * intros [-> [r ->]]. now exists r.
      * intros [r Hr]. injection Hr as -> ->. split; [reflexivity | now exists r].
Qed.

Lemma contains_iff (sub s : string) :
  Str.contains sub s = true <-> occurs_in sub s.
Proof.
  unfold occurs_in. induction s as [|c s IH].
  - simpl. rewrite orb_false_r, starts_with_iff. split.
    + intros [b Hb]. now exists EmptyString, b.
    + intros [a [b Hab]]. destruct a; simpl in Hab; [now exists b | discriminate].
  - cbn [Str.contains]. rewrite orb_true_iff, starts_with_iff, IH. split.
    + intros [[b Hb] | [a [b Hab]]].
      * now exists EmptyString, b.
      * exists (String c a), b. simpl. now rewrite Hab.
    + intros [a [b Hab]]. destruct a as [|c' a]; simpl in Hab.
      * left. now exists b.
      * right. injection Hab as _ Hs. now exists a, b.
Qed.

Lemma contains_false_iff (sub s : string) :
  Str.contains sub s = false <-> ~ occurs_in sub s.
Proof.
  rewrite <- contains_iff. destruct (Str.contains sub s); split; congruence.
Qed.

(** ** The column guess *)

Section ColumnGuessFacts.

Variable lower : string -> string.

Lemma first_index_from_some (sub : string) (cols : list string) :
  forall i j,
    first_index_from sub (map lower cols) i = Some j ->
    exists c1 c c2,
      cols = c1 ++ c :: c2 /\ j = i + List.length c1 /\
      Str.contains sub (lower c) = true /\
      (forall c', In c' c1 -> Str.contains sub (lower c') = false).
Proof.
  induction cols as [|c cols IH]; intros i j; simpl; [discriminate|].
  destruct (Str.contains sub (lower c)) eqn:Hc.
  - intros [= <-]. exists [], c, cols. simpl. repeat split; auto with arith.
    intros c' [].
  - intros H. destruct (IH _ _ H) as (c1 & c' & c2 & -> & -> & Hm & Hno).
    exists (c :: c1), c', c2. simpl. repeat split; auto; try lia.
    intros x [<- | Hx]; auto.
Qed.

Lemma first_index_from_none (sub : string) (cols : list string) (i : nat) :
  first_index_from sub (map lower cols) i = None <->
  (forall c, In c cols -> Str.contains sub (lower c) = false).
Proof.
  revert i; induction cols as [|c cols IH]; intros i; simpl.
  - split; [intros _ c [] | reflexivity].
  - destruct (Str.contains sub (lower c)) eqn:Hc.
    + split; [discriminate | intros H; specialize (H c (or_introl eq_refl)); congruence].
    + rewrite IH. split.
      * intros H x [<- | Hx]; auto.
      * intros H x Hx. apply H. now right.
Qed.

Lemma first_index_from_hit (sub : string) (c1 : list string) (c : string)
  (c2 : list string) (i : nat) :
  (forall c', In c' c1 -> Str.contains sub (lower c') = false) ->
  Str.contains sub (lower c) = true ->
  first_index_from sub (map lower (c1 ++ c :: c2)) i = Some (i + List.length c1).
Proof.
  revert i; induction c1 as [|x c1 IH]; intros i Hno Hc; simpl.
  - rewrite Hc. f_equal. lia.
  - rewrite (Hno x (or_introl eq_refl)).
    rewrite IH; [f_equal; lia | | assumption].
    intros c' Hc'. apply Hno. now right.
Qed.

Lemma first_match_loop_skip (cols : list string) (s1 rest : list string) :
  (forall s, In s s1 -> no_hit lower s cols) ->
  first_match_loop cols (map lower cols) (s1 ++ rest) =
  first_match_loop cols (map lower cols) rest.
Proof.
  induction s1 as [|s s1 IH]; intros Hno; simpl; [reflexivity|].
  assert (Hs : first_index_from s (map lower cols) 0 = None).
  { apply first_index_from_none. intros c Hc.
    apply contains_false_iff. apply (Hno s); simpl; auto. }
  rewrite Hs. apply IH. intros x Hx. apply Hno. now right.
Qed.

Lemma first_match_loop_sound (cols subs : list string) :
  match first_match_loop cols (map lower cols) subs with
  | Some c =>
      exists s1 sub s2,
        subs = s1 ++ sub :: s2 /\
        (forall s, In s s1 -> no_hit lower s cols) /\
        first_hit lower sub cols c
  | None => forall sub, In sub subs -> no_hit lower sub cols
  end.
Proof.
  induction subs as [|sub subs IH]; simpl.
  - intros sub [].
  - destruct (first_index_from sub (map lower cols) 0) as [j|] eqn:Hj.
    + destruct (first_index_from_some _ _ _ _ Hj) as (c1 & c & c2 & -> & -> & Hm & Hno).
      simpl. rewrite nth_error_app2 by lia. rewrite Nat.sub_diag. simpl.
      exists [], sub, subs. repeat split; [intros s []|].
      exists c1, c2. repeat split; [now apply contains_iff|].
      intros c' Hc'. apply contains_false_iff. auto.
    + assert (Hsub : no_hit lower sub cols).
      { intros c Hc. apply contains_false_iff.
        now apply (proj1 (first_index_from_none sub cols 0) Hj). }
      destruct (first_match_loop cols (map lower cols) subs) as [c|].
      * destruct IH as (s1 & sub' & s2 & -> & Hs1 & Hhit).
        exists (sub :: s1), sub', s2. repeat split; auto.
        intros s [<- | Hs]; auto.
      * intros s [<- | Hs]; auto.
Qed.

Lemma first_match_loop_complete (cols s1 s2 : list string) (sub c : string) :
  (forall s, In s s1 -> no_hit lower s cols) ->
  first_hit lower sub cols c ->
  first_match_loop cols (map lower cols) (s1 ++ sub :: s2) = Some c.
Proof.
  intros Hs1 (c1 & c2 & -> & Hm & Hno).
  rewrite first_match_loop_skip by assumption. simpl.
  rewrite first_index_from_hit.
  - simpl. rewrite nth_error_app2 by lia. now rewrite Nat.sub_diag.
  - intros c' Hc'. apply contains_false_iff. auto.
  - now apply contains_iff.
Qed.

(** X16. [first_match] goes through the substrings in the given order and,
    for each, through the column names in their order; it returns the first
    column whose lowered name holds the substring, for the first substring
    that has such a column, and [None] exactly when no lowered column name
    holds any of the substrings. *)
Theorem first_match_spec (cols substrings : list string) :
  (forall c,
      first_match lower cols substrings = Some c <->
      exists s1 sub s2,
        substrings = s1 ++ sub :: s2 /\
        (forall s, In s s1 -> no_hit lower s cols) /\
        first_hit lower sub cols c) /\
  (first_match lower cols substrings = None <->
   forall sub, In sub substrings -> no_hit lower sub cols).
Proof.
  unfold first_match.
  pose proof (first_match_loop_sound cols substrings) as Hsound.
  split.
  - intros c. split.
    + intros H. now rewrite H in Hsound.
    + intros (s1 & sub & s2 & -> & Hs1 & Hhit).
      now apply first_match_loop_complete.
  - split.
    + intros H. now rewrite H in Hsound.
    + intros Hnone.
      destruct (first_match_loop cols (map lower cols) substrings) as [c|];
        [|reflexivity].
      destruct Hsound as (s1 & sub & s2 & -> & _ & (c1 & c2 & -> & Hm & _)).
      exfalso. apply (Hnone sub (in_elt sub s1 s2) c); [apply in_elt | exact Hm].
Qed.

End ColumnGuessFacts.

(** The columns of a sample file, guessed with ASCII lowering. *)
Example first_match_sample :
  first_match Str.ascii_lower ["Date"; "Air Temp"; "TEMP2"; "Humidity"] ["temp"]
  = Some "Air Temp" /\
  first_match Str.ascii_lower ["Day"; "Timestamp"] ["date"; "time"; "day"]
  = Some "Timestamp" /\
  first_match Str.ascii_lower ["a"; "b"] ["temp"] = None.
Proof. repeat split. Qed.

(** Only the column names are lowered: a substring is looked up as given. *)
Example first_match_substring_as_given :
  first_match Str.ascii_lower ["Temp"] ["Temp"] = None.
Proof. reflexivity. Qed.







(** ** The selection index *)

Lemma list_index_found (pre post : list string) (v : string) :
  ~ In v pre ->
  list_index (pre ++ v :: post) v = Ok (Z.of_nat (List.length pre)).
Proof.
  induction pre as [|o pre IH]; intros Hno.
  - simpl. now rewrite String.eqb_refl.
  - cbn [app list_index]. destruct (String.eqb_spec o v) as [->|Hne].
    + exfalso. apply Hno. now left.
    + rewrite IH by (intros Hin; apply Hno; now right).
      cbn [bind]. f_equal.
      change (List.length (o :: pre)) with (S (List.length pre)). lia.
Qed.

Lemma list_index_absent (options : list string) (v : string) :
  ~ In v options -> list_index options v = Raise ValueError.
Proof.
  induction options as [|o options IH]; intros Hno; simpl; [reflexivity|].
  destruct (String.eqb_spec o v) as [->|Hne].
  - exfalso. apply Hno. now left.
  - rewrite IH by (intros Hin; apply Hno; now right). reflexivity.
Qed.

Lemma safe_index_returns (options : list string) (value : option string)
  (offset fallback : Z) :
  exists n, safe_index options value offset fallback = Ok n.
Proof.
  unfold safe_index. destruct value as [v|]; simpl; [|eauto].
  destruct (list_index options v); simpl; eauto.
Qed.

(** C7. [safe_index] never raises: it returns [offset] plus the position of
    the first occurrence of the value when the value is among the options, and
    the fallback when the value is absent or is [None]. *)
Theorem safe_index_spec (options : list string) (value : option string)
  (offset fallback : Z) :
  (exists n, safe_index options value offset fallback = Ok n) /\
  (forall v pre post,
      value = Some v -> options = pre ++ v :: post -> ~ In v pre ->
      safe_index options value offset fallback
      = Ok (offset + Z.of_nat (List.length pre))%Z) /\
  (forall v,
      value = Some v -> ~ In v options ->
      safe_index options value offset fallback = Ok fallback) /\
  (value = None -> safe_index options value offset fallback = Ok fallback).
Proof.
  split; [apply safe_index_returns|]. split; [|split].
  - intros v pre post -> -> Hno. unfold safe_index.
    now rewrite list_index_found.
  - intros v -> Hno. unfold safe_index.
    now rewrite list_index_absent.
  - now intros ->.
Qed.

(** The start positions of the three select boxes of a sample file. *)
Example safe_index_sample :
  let cols := ["Date"; "Air Temp"; "Humidity"] in
  temp_idx Str.ascii_lower cols = Ok 1%Z /\
  hum_idx Str.ascii_lower cols = Ok 3%Z /\
  x_idx Str.ascii_lower cols = Ok 1%Z /\
  hum_idx Str.ascii_lower ["a"; "b"] = Ok 0%Z.
Proof. repeat split. Qed.

(** ** Floating-point facts *)

Lemma SFeqb_refl_false (s : spec_float) : SFeqb s s = false -> s = S754_nan.
Proof.
  destruct s as [b|b| |b m e]; unfold SFeqb; simpl;
    try discriminate; try reflexivity.
  - destruct b; discriminate.
  - rewrite Z.compare_refl.
    change (PosDef.Pos.compare_cont Eq m m) with (Pos.compare m m).
    rewrite Pos.compare_refl. destruct b; discriminate.
Qed.

(** There is one NaN. *)
Lemma is_nan_true (f : float) : PrimFloat.is_nan f = true -> f = PrimFloat.nan.
Proof.
  unfold PrimFloat.is_nan. rewrite negb_true_iff, eqb_spec. intros H.
  apply SFeqb_refl_false in H.
  rewrite <- (SF2Prim_Prim2SF f), H. reflexivity.
Qed.

Lemma fahrenheit_to_celsius_nan (f : float) :
  PrimFloat.is_nan f = true -> PrimFloat.is_nan (fahrenheit_to_celsius f) = true.
Proof. intros H. now rewrite (is_nan_true f H). Qed.

(** ** Tables *)

Lemma get_set_same (name : string) (s : series) (t : table) :
  get_col name (set_col name s t) = Ok s.
Proof.
  induction t as [|[n s0] t IH]; simpl.
  - now rewrite String.eqb_refl.
  - destruct (String.eqb n name) eqn:E; simpl; now rewrite E.
Qed.

Lemma get_set_other (name other : string) (s : series) (t : table) :
  name <> other ->
  get_col name (set_col other s t) = get_col name t.
Proof.
  intros Hne. induction t as [|[n s0] t IH]; simpl.
  - destruct (String.eqb_spec other name); [congruence | reflexivity].
  - destruct (String.eqb_spec n other) as [->|Hn]; simpl.
    + destruct (String.eqb_spec other name); [congruence | reflexivity].
    + now rewrite IH.
Qed.

Lemma existsb_eqb_in (name : string) (names : list string) :
  existsb (String.eqb name) names = true <-> In name names.
Proof.
  rewrite existsb_exists. split.
  - intros [x [Hx E]]. apply String.eqb_eq in E. now subst.
  - intros H. exists name. split; [assumption | apply String.eqb_refl].
Qed.

Lemma get_col_in (name : string) (t : table) :
  In name (columns t) -> exists s, get_col name t = Ok s /\ In (name, s) t.
Proof.
  induction t as [|[n s0] t IH]; simpl; [intros []|].
  destruct (String.eqb_spec n name) as [->|Hn].
  - intros _. exists s0. auto.
  - intros [H | H]; [congruence|].
    destruct (IH H) as [s [Hs Hin]]. exists s. auto.
Qed.

Lemma get_col_ok (name : string) (t : table) (s : series) :
  get_col name t = Ok s -> In (name, s) t.
Proof.
  induction t as [|[n s0] t IH]; simpl; [discriminate|].
  destruct (String.eqb_spec n name) as [->|Hn].
  - intros [= ->]. now left.
  - intros H. right. auto.
Qed.

Lemma columns_set_col (name : string) (s : series) (t : table) :
  columns (set_col name s t) = add_name name (columns t).
Proof.
  unfold add_name. induction t as [|[n s0] t IH]; simpl; [reflexivity|].
  destruct (String.eqb n name); simpl; [reflexivity|].
  rewrite IH. now destruct (existsb (fun n0 => String.eqb n0 name) (columns t)).
Qed.

Lemma add_name_fresh (name : string) (names : list string) :
  ~ In name names -> add_name name names = names ++ [name].
Proof.
  intros H. unfold add_name.
  destruct (existsb (fun n => String.eqb n name) names) eqn:E; [|reflexivity].
  apply existsb_exists in E. destruct E as [x [Hx E]].
  apply String.eqb_eq in E. now subst.
Qed.

Lemma in_add_name (name n : string) (names : list string) :
  In n names -> In n (add_name name names).
Proof.
  unfold add_name.
  destruct (existsb (fun n0 => String.eqb n0 name) names); [auto|].
  intros H. apply in_or_app. now left.
Qed.

Lemma table_wf_in (t : table) (n : string) (s : series) :
  table_wf t = true -> In (n, s) t -> series_len s = nrows t.
Proof.
  unfold table_wf. rewrite forallb_forall. intros H Hin.
  apply Nat.eqb_eq. apply (H (n, s) Hin).
Qed.

Lemma set_col_in (name : string) (s : series) (t : table) (n : string)
  (s' : series) :
  In (n, s') (set_col name s t) -> (n, s') = (name, s) \/ In (n, s') t.
Proof.
  induction t as [|[m s0] t IH]; simpl.
  - intros [H | []]. now left.
  - destruct (String.eqb_spec m name) as [->|Hm]; simpl.
    + intros [H | H]; auto.
    + intros [H | H]; auto. destruct (IH H); auto.
Qed.

Lemma nrows_set_col (name : string) (s : series) (t : table) :
  t <> [] -> series_len s = nrows t -> nrows (set_col name s t) = nrows t.
Proof.
  destruct t as [|[m s0] t]; [congruence|]. intros _ Hlen. simpl.
  now destruct (String.eqb m name).
Qed.

Lemma table_wf_set_col (name : string) (s : series) (t : table) :
  t <> [] -> table_wf t = true -> series_len s = nrows t ->
  table_wf (set_col name s t) = true.
Proof.
  intros Hne Hwf Hlen. unfold table_wf. apply forallb_forall.
  intros [n s'] Hin. simpl. rewrite nrows_set_col by assumption.
  apply Nat.eqb_eq. destruct (set_col_in _ _ _ _ _ Hin) as [[= -> ->] | H].
  - assumption.
  - now apply (table_wf_in t n).
Qed.

Lemma set_col_not_nil (name : string) (s : series) (t : table) :
  set_col name s t <> [].
Proof.
  destruct t as [|[m s0] t]; simpl; [discriminate|].
  destruct (String.eqb m name); discriminate.
Qed.

Lemma add_name_in (name : string) (names : list string) :
  In name names -> add_name name names = names.
Proof.
  intros H. unfold add_name.
  destruct (existsb (fun n => String.eqb n name) names) eqn:E; [reflexivity|].
  exfalso. apply Bool.not_true_iff_false in E. apply E.
  apply existsb_exists. exists name. split; [assumption | apply String.eqb_refl].
Qed.

Lemma valid_selection_inv (df : table) (sel : selection) :
  valid_selection df sel = true ->
  In (temp_col sel) (columns df) /\
  (hum_col sel = "<none>" \/ In (hum_col sel) (columns df)) /\
  (x_col sel = "<index>" \/ In (x_col sel) (columns df)) /\
  (unit sel = "°C" \/ unit sel = "°F").
Proof.
  unfold valid_selection. rewrite !andb_true_iff, !existsb_eqb_in.
  intros [[[Ht Hh] Hx] Hu]. repeat split; auto.
  - destruct Hh as [H | H]; auto.
  - destruct Hx as [H | H]; auto.
  - destruct Hu as [H | [H | []]]; auto.
Qed.

(** ** Boolean indexing and dropped rows *)

Lemma select_nil_r {A : Type} (mask : list bool) : @select A mask [] = [].
Proof. now destruct mask. Qed.

(** The entry of [l] at position [k], counted from [a]. *)
Lemma select_map_seq {A : Type} (p : nat -> bool) (n : nat) :
  forall (a : nat) (l : list A),
    select (map p (seq a n)) l
    = flat_map (fun k => match nth_error l (k - a) with
                         | Some x => [x]
                         | None => []
                         end)
               (filter p (seq a n)).
Proof.
  induction n as [|n IH]; intros a l; [reflexivity|].
  destruct l as [|x l].
  - rewrite select_nil_r. symmetry.
    induction (filter p (seq a (S n))) as [|k ks IHk]; [reflexivity|].
    cbn [flat_map]. rewrite IHk. now destruct (k - a).
  - cbn [seq map select filter].
    assert (Hshift :
              flat_map (fun k => match nth_error (x :: l) (k - a) with
                                 | Some y => [y]
                                 | None => []
                                 end) (filter p (seq (S a) n))
              = flat_map (fun k => match nth_error l (k - S a) with
                                   | Some y => [y]
                                   | None => []
                                   end) (filter p (seq (S a) n))).
    { assert (Hge : forall k, In k (filter p (seq (S a) n)) -> S a <= k).
      { intros k Hk. apply filter_In in Hk. destruct Hk as [Hk _].
        apply in_seq in Hk. lia. }
      induction (filter p (seq (S a) n)) as [|k ks IHk]; [reflexivity|].
      cbn [flat_map]. rewrite IHk by (intros k' Hk'; apply Hge; now right).
      f_equal. assert (S a <= k) by (apply Hge; now left).
      replace (k - a) with (S (k - S a)) by lia. reflexivity. }
    destruct (p a).
    + cbn [flat_map]. rewrite Nat.sub_diag. cbn [nth_error app].
      f_equal. rewrite Hshift. apply IH.
    + rewrite Hshift. apply IH.
Qed.

Lemma select_pick {A : Type} (p : nat -> bool) (n : nat) (l : list A) :
  select (map p (seq 0 n)) l = pick l (filter p (seq 0 n)).
Proof.
  rewrite select_map_seq. unfold pick.
  induction (filter p (seq 0 n)) as [|k ks IH]; [reflexivity|].
  cbn [flat_map]. now rewrite IH, Nat.sub_0_r.
Qed.

Lemma series_select_pick (p : nat -> bool) (n : nat) (s : series) :
  series_select (map p (seq 0 n)) s = series_pick s (filter p (seq 0 n)).
Proof. destruct s; simpl; now rewrite select_pick. Qed.

Lemma in_kept_rows (f : frame) (i : nat) :
  In i (kept_rows f) <-> i < frame_nrows f /\ row_all_na (data f) i = false.
Proof.
  unfold kept_rows. rewrite filter_In, in_seq, negb_true_iff. intuition lia.
Qed.

(** [dropna(how="all")] keeps the rows at the positions [kept_rows], in
    their order, in the index and in every column. *)
Lemma dropna_all_pick (f : frame) :
  index (dropna_all f) = pick (index f) (kept_rows f) /\
  data (dropna_all f)
  = map (fun c => (fst c, series_pick (snd c) (kept_rows f))) (data f).
Proof.
  unfold dropna_all, keep_mask, kept_rows. cbn [index data]. split.
  - apply select_pick.
  - apply map_ext. intros c. now rewrite series_select_pick.
Qed.

Lemma row_all_na_plotted (tc : series) (hum : option series) (i : nat) :
  row_all_na (plotted tc hum) i = all_plotted_missing tc hum i.
Proof.
  unfold row_all_na, plotted, all_plotted_missing.
  destruct hum; simpl; now rewrite ?andb_true_r.
Qed.

Lemma select_map_self {A : Type} (p : A -> bool) (l : list A) :
  select (map p l) l = filter p l.
Proof.
  induction l as [|x l IH]; [reflexivity|]. simpl. rewrite IH.
  now destruct (p x).
Qed.

(** Dropping rows by a mask that keeps every row where [q] holds does not
    change which entries satisfy [q]. *)
Lemma filter_select_keep {A : Type} (q : A -> bool) (p : nat -> bool) :
  forall (l : list A) (a : nat),
    (forall i x, nth_error l i = Some x -> q x = true -> p (a + i) = true) ->
    filter q (select (map p (seq a (List.length l))) l) = filter q l.
Proof.
  induction l as [|x l IH]; intros a Hkeep; [reflexivity|].
  cbn [List.length seq map select].
  assert (Hrest : filter q (select (map p (seq (S a) (List.length l))) l)
                  = filter q l).
  { apply IH. intros i y Hy Hq. replace (S a + i) with (a + S i) by lia.
    now apply (Hkeep (S i) y). }
  destruct (p a) eqn:Hp.
  - cbn [filter]. now rewrite Hrest.
  - cbn [filter]. destruct (q x) eqn:Hq; [|exact Hrest].
    specialize (Hkeep 0 x eq_refl Hq). rewrite Nat.add_0_r in Hkeep. congruence.
Qed.

Lemma series_dropna_float64 (v : list float) :
  series_dropna (Float64 v) = Float64 (dropna_values v).
Proof.
  unfold series_dropna, dropna_values. cbn [items series_select].
  rewrite map_map. cbn [item_isna].
  now rewrite (select_map_self (fun f => negb (PrimFloat.is_nan f))).
Qed.

Lemma entry_isna_float64 (v : list float) (i : nat) (f : float) :
  nth_error v i = Some f -> entry_isna (Float64 v) i = PrimFloat.is_nan f.
Proof.
  intros H. unfold entry_isna. cbn [items]. now rewrite nth_error_map, H.
Qed.

Lemma select_not_nil {A : Type} (p : nat -> bool) (n i : nat) (l : list A) :
  i < n -> i < List.length l -> p i = true ->
  select (map p (seq 0 n)) l <> [].
Proof.
  intros Hn Hl Hp. rewrite select_pick. unfold pick.
  assert (Hin : In i (filter p (seq 0 n))).
  { apply filter_In. split; [apply in_seq; lia | assumption]. }
  destruct (nth_error l i) as [x|] eqn:Hx;
    [|apply nth_error_None in Hx; lia].
  intros Hnil.
  assert (Hx' : In x (flat_map (fun k => match nth_error l k with
                                          | Some y => [y]
                                          | None => []
                                          end) (filter p (seq 0 n)))).
  { apply in_flat_map. exists i. split; [assumption|]. rewrite Hx. now left. }
  rewrite Hnil in Hx'. destruct Hx'.
Qed.

(** ** Floating-point arithmetic and order *)

Lemma shr_1_nonneg (mrs : shr_record) :
  (0 <= shr_m mrs)%Z -> (0 <= shr_m (shr_1 mrs))%Z.
Proof.
  destruct mrs as [m r s]. cbn [shr_m]. intros Hm.
  destruct m as [|p|p]; [simpl; lia | | lia].
  destruct p; simpl; lia.
Qed.

Lemma iter_pos_shr_1_nonneg (p : positive) :
  forall mrs, (0 <= shr_m mrs)%Z -> (0 <= shr_m (iter_pos shr_1 p mrs))%Z.
Proof.
  induction p as [p IH|p IH|]; intros mrs Hm; cbn [iter_pos].
  - apply IH, IH. now apply shr_1_nonneg.
  - now apply IH, IH.
  - now apply shr_1_nonneg.
Qed.

Lemma shr_fexp_nonneg (m e : Z) (l : location) :
  (0 <= m)%Z -> (0 <= shr_m (fst (shr_fexp prec emax m e l)))%Z.
Proof.
  intros Hm. unfold shr_fexp, shr.
  assert (H0 : (0 <= shr_m (shr_record_of_loc m l))%Z).
  { destruct l as [|[]]; exact Hm. }
  destruct (fexp prec emax (Zdigits2 m + e) - e)%Z; cbn [fst]; auto.
  now apply iter_pos_shr_1_nonneg.
Qed.

Lemma round_nearest_even_nonneg (m : Z) (l : location) :
  (0 <= m)%Z -> (0 <= round_nearest_even m l)%Z.
Proof.
  intros Hm. unfold round_nearest_even.
  destruct l as [|[]]; try lia. destruct (IntDef.Z.even m); lia.
Qed.

(** Rounding a mantissa that is not negative gives a zero, a finite number
    or an infinity. *)
Lemma binary_round_aux_not_nan (sx : bool) (mx ex : Z) (lx : location) :
  (0 <= mx)%Z -> binary_round_aux prec emax sx mx ex lx <> S754_nan.
Proof.
  intros Hm. unfold binary_round_aux.
  pose proof (shr_fexp_nonneg mx ex lx Hm) as H1.
  destruct (shr_fexp prec emax mx ex lx) as [mrs' e']. cbn [fst] in H1.
  pose proof (shr_fexp_nonneg _ e' loc_Exact
                (round_nearest_even_nonneg _ (loc_of_shr_record mrs') H1)) as H2.
  destruct (shr_fexp prec emax
              (round_nearest_even (shr_m mrs') (loc_of_shr_record mrs')) e'
              loc_Exact) as [mrs'' e'']. cbn [fst] in H2.
  destruct (shr_m mrs'') as [|p|p]; [discriminate | | lia].
  destruct (e'' <=? emax - prec)%Z; discriminate.
Qed.

Lemma binary_normalize_not_nan (m e : Z) (szero : bool) :
  binary_normalize prec emax m e szero <> S754_nan.
Proof.
  unfold binary_normalize, binary_round.
  destruct m as [|p|p]; [discriminate | |];
    destruct (shl_align p e _) as [mz ez];
    apply binary_round_aux_not_nan; lia.
Qed.

Lemma SFsub_finite_nan (x : spec_float) (sy : bool) (my : positive) (ey : Z) :
  SFsub prec emax x (S754_finite sy my ey) = S754_nan <-> x = S754_nan.
Proof.
  destruct x as [sx|sx| |sx mx ex]; cbn [SFsub];
    try (split; [discriminate | discriminate]); try tauto.
  split; [|discriminate]. intros H. now apply binary_normalize_not_nan in H.
Qed.

Lemma SFmul_finite_nan (x : spec_float) (sy : bool) (my : positive) (ey : Z) :
  SFmul prec emax x (S754_finite sy my ey) = S754_nan <-> x = S754_nan.
Proof.
  destruct x as [sx|sx| |sx mx ex]; cbn [SFmul];
    try (split; [discriminate | discriminate]); try tauto.
  split; [|discriminate]. intros H.
  apply binary_round_aux_not_nan in H; [destruct H | lia].
Qed.

Lemma SFdiv_core_nonneg (m1 : positive) (e1 : Z) (m2 : positive) (e2 : Z) :
  (0 <= fst (fst (SFdiv_core_binary prec emax (Z.pos m1) e1 (Z.pos m2) e2)))%Z.
Proof.
  unfold SFdiv_core_binary.
  set (s := (e1 - e2 - _)%Z).
  set (m' := match s with
             | 0%Z => Z.pos m1
             | Z.pos _ => IntDef.Z.shiftl (Z.pos m1) s
             | Z.neg _ => 0%Z
             end).
  assert (Hm' : (0 <= m')%Z).
  { unfold m'. destruct s; try lia. apply Z.shiftl_nonneg. lia. }
  pose proof (Z.div_pos m' (Z.pos m2) Hm' ltac:(lia)) as Hq.
  unfold Z.div in Hq.
  change IntDef.Z.div_eucl with Z.div_eucl.
  destruct (Z.div_eucl m' (Z.pos m2)) as [q r]. exact Hq.
Qed.

Lemma SFdiv_finite_nan (x : spec_float) (sy : bool) (my : positive) (ey : Z) :
  SFdiv prec emax x (S754_finite sy my ey) = S754_nan <-> x = S754_nan.
Proof.
  destruct x as [sx|sx| |sx mx ex]; cbn [SFdiv];
    try (split; [discriminate | discriminate]); try tauto.
  split; [|discriminate]. intros H.
  pose proof (SFdiv_core_nonneg mx ex my ey) as Hq.
  destruct (SFdiv_core_binary prec emax (Z.pos mx) ex (Z.pos my) ey)
    as [[mz ez] lz].
  cbn [fst] in Hq. now apply binary_round_aux_not_nan in H.
Qed.

Lemma is_nan_spec (f : float) :
  PrimFloat.is_nan f = true <-> Prim2SF f = S754_nan.
Proof.
  unfold PrimFloat.is_nan. rewrite negb_true_iff, eqb_spec. split.
  - apply SFeqb_refl_false.
  - intros ->. reflexivity.
Qed.

(** The conversion gives NaN for NaN only. *)
Lemma fahrenheit_to_celsius_is_nan (f : float) :
  PrimFloat.is_nan (fahrenheit_to_celsius f) = PrimFloat.is_nan f.
Proof.
  apply eq_true_iff_eq. rewrite !is_nan_spec. unfold fahrenheit_to_celsius.
  rewrite div_spec, mul_spec, sub_spec.
  change (Prim2SF 9) with (S754_finite false 5066549580791808 (-49)).
  change (Prim2SF 5) with (S754_finite false 5629499534213120 (-50)).
  change (Prim2SF 32) with (S754_finite false 4503599627370496 (-47)).
  unfold SF64div, SF64mul, SF64sub.
  now rewrite SFdiv_finite_nan, SFmul_finite_nan, SFsub_finite_nan.
Qed.

Ltac cmp_cases :=
  repeat match goal with
    | H : context [(?x ?= ?y)%Z] |- _ => destruct (Z.compare_spec x y)
    | |- context [(?x ?= ?y)%Z] => destruct (Z.compare_spec x y)
    | H : context [(?x ?= ?y)%positive] |- _ => destruct (Pos.compare_spec x y)
    | |- context [(?x ?= ?y)%positive] => destruct (Pos.compare_spec x y)
    end.

Ltac sf_order :=
  repeat match goal with s : bool |- _ => destruct s end;
  try congruence; try discriminate;
  change PosDef.Pos.compare_cont with Pos.compare_cont in *;
  repeat match goal with
    | H : context [Pos.compare_cont Eq ?x ?y] |- _ => fold (Pos.compare x y) in H
    | |- context [Pos.compare_cont Eq ?x ?y] => fold (Pos.compare x y)
    end;
  cmp_cases; cbn [CompOpp] in *; subst;
  try congruence; try discriminate; try lia.

(** [a < b] and [b <= c] give [a < c], for a number [c]. *)
Lemma SFltb_leb_trans (a b c : spec_float) :
  c <> S754_nan ->
  SFltb a b = true -> SFltb c b = false -> SFltb a c = true.
Proof.
  unfold SFltb.
  destruct a as [sa|sa| |sa ma ea], b as [sb|sb| |sb mb eb],
    c as [sc|sc| |sc mc ec]; cbn [SFcompare]; intros Hc Hab Hcb;
    try congruence; sf_order.
Qed.

Lemma SFltb_asym (a b : spec_float) :
  SFltb a b = true -> SFltb b a = false.
Proof.
  unfold SFltb.
  destruct a as [sa|sa| |sa ma ea], b as [sb|sb| |sb mb eb];
    cbn [SFcompare]; intros Hab; try congruence; sf_order.
Qed.

Lemma SFltb_irrefl (a : spec_float) : SFltb a a = false.
Proof.
  destruct (SFltb a a) eqn:H; [|reflexivity].
  pose proof (SFltb_asym a a H). congruence.
Qed.

Lemma ltb_leb_trans (a b c : float) :
  PrimFloat.is_nan c = false ->
  (a <? b)%float = true -> (c <? b)%float = false -> (a <? c)%float = true.
Proof.
  rewrite !ltb_spec. intros Hc. apply SFltb_leb_trans.
  intros Hnan. apply is_nan_spec in Hnan. congruence.
Qed.

Lemma ltb_asym (a b : float) :
  (a <? b)%float = true -> (b <? a)%float = false.
Proof. rewrite !ltb_spec. apply SFltb_asym. Qed.

Lemma ltb_irrefl (a : float) : (a <? a)%float = false.
Proof. rewrite ltb_spec. apply SFltb_irrefl. Qed.

(** ** Minimum and maximum *)

Lemma fold_fmin_in (xs : list float) :
  forall x, In (fold_left fmin xs x) (x :: xs).
Proof.
  induction xs as [|z xs IH]; intros x; cbn [fold_left]; [now left|].
  destruct (IH (fmin x z)) as [H | H].
  - rewrite <- H. unfold fmin. destruct (x <? z)%float; cbn [In]; auto.
  - right. now right.
Qed.

Lemma fold_fmax_in (xs : list float) :
  forall x, In (fold_left fmax xs x) (x :: xs).
Proof.
  induction xs as [|z xs IH]; intros x; cbn [fold_left]; [now left|].
  destruct (IH (fmax x z)) as [H | H].
  - rewrite <- H. unfold fmax. destruct (z <? x)%float; cbn [In]; auto.
  - right. now right.
Qed.

Lemma fold_fmin_lower (xs : list float) :
  forall x,
    (forall y, In y (x :: xs) -> PrimFloat.is_nan y = false) ->
    forall y, In y (x :: xs) -> (y <? fold_left fmin xs x)%float = false.
Proof.
  induction xs as [|z xs IH]; intros x Hnum y Hy; cbn [fold_left].
  - destruct Hy as [<- | []]. apply ltb_irrefl.
  - assert (Hm : PrimFloat.is_nan (fmin x z) = false).
    { unfold fmin. destruct (x <? z)%float; apply Hnum; cbn [In]; auto. }
    assert (Hnum' : forall y', In y' (fmin x z :: xs)
                               -> PrimFloat.is_nan y' = false).
    { intros y' [<- | Hy']; [assumption|]. apply Hnum. right. now right. }
    assert (Hstep : forall y', (y' <? fmin x z)%float = false ->
                               (y' <? fold_left fmin xs (fmin x z))%float = false).
    { intros y' Hy'.
      destruct (y' <? fold_left fmin xs (fmin x z))%float eqn:E; [|reflexivity].
      rewrite (ltb_leb_trans _ _ _ Hm E) in Hy'; [discriminate|].
      apply (IH _ Hnum'). now left. }
    destruct Hy as [<- | [<- | Hy]].
    + apply Hstep. unfold fmin. destruct (x <? z)%float eqn:E.
      * apply ltb_irrefl.
      * assumption.
    + apply Hstep. unfold fmin. destruct (x <? z)%float eqn:E.
      * now apply ltb_asym.
      * apply ltb_irrefl.
    + apply (IH _ Hnum'). now right.
Qed.

Lemma fold_fmax_upper (xs : list float) :
  forall x,
    (forall y, In y (x :: xs) -> PrimFloat.is_nan y = false) ->
    forall y, In y (x :: xs) -> (fold_left fmax xs x <? y)%float = false.
Proof.
  induction xs as [|z xs IH]; intros x Hnum y Hy; cbn [fold_left].
  - destruct Hy as [<- | []]. apply ltb_irrefl.
  - assert (Hm : PrimFloat.is_nan (fmax x z) = false).
    { unfold fmax. destruct (z <? x)%float; apply Hnum; cbn [In]; auto. }
    assert (Hnum' : forall y', In y' (fmax x z :: xs)
                               -> PrimFloat.is_nan y' = false).
    { intros y' [<- | Hy']; [assumption|]. apply Hnum. right. now right. }
    assert (Hstep : forall y', (fmax x z <? y')%float = false ->
                               (fold_left fmax xs (fmax x z) <? y')%float = false).
    { intros y' Hy'.
      destruct (fold_left fmax xs (fmax x z) <? y')%float eqn:E; [|reflexivity].
      assert (Hr : (fold_left fmax xs (fmax x z) <? fmax x z)%float = false)
        by (apply (IH _ Hnum'); now left).
      rewrite (ltb_leb_trans _ _ _ Hm E Hy') in Hr. discriminate. }
    destruct Hy as [<- | [<- | Hy]].
    + apply Hstep. unfold fmax. destruct (z <? x)%float eqn:E.
      * apply ltb_irrefl.
      * assumption.
    + apply Hstep. unfold fmax. destruct (z <? x)%float eqn:E.
      * now apply ltb_asym.
      * apply ltb_irrefl.
    + apply (IH _ Hnum'). now right.
Qed.

Lemma dropna_values_number (v : list float) (y : float) :
  In y (dropna_values v) -> PrimFloat.is_nan y = false.
Proof.
  unfold dropna_values. intros H. apply filter_In in H.
  now apply negb_true_iff.
Qed.

(** The minimum and the maximum of a series with a number are among its
    numbers and bound them. *)
Lemma smin_smax_bounds (v : list float) :
  dropna_values v <> [] ->
  In (smin v) (dropna_values v) /\
  In (smax v) (dropna_values v) /\
  (forall y, In y (dropna_values v) ->
             (y <? smin v)%float = false /\ (smax v <? y)%float = false).
Proof.
  intros Hne. unfold smin, smax.
  pose proof (dropna_values_number v) as Hnum.
  destruct (dropna_values v) as [|x xs]; [congruence|].
  split; [apply fold_fmin_in|]. split; [apply fold_fmax_in|].
  intros y Hy. split.
  - now apply fold_fmin_lower.
  - now apply fold_fmax_upper.
Qed.

(** ** The working table *)

Section SessionFacts.

Variable parse_number : string -> option float.
Variable to_datetime : series -> result (nat -> option Z).
Variable np_sum : list float -> float.
Variable to_csv : table -> string.


Lemma to_numeric_values (s : series) :
  to_numeric parse_number s = Float64 (numeric_values parse_number s).
Proof.
  destruct s as [v|v]; simpl; [|reflexivity].
  unfold numeric_values. simpl. rewrite map_map. simpl.
  now rewrite map_id.
Qed.

Lemma to_numeric_idem (s : series) : to_numeric parse_number (to_numeric parse_number s) = to_numeric parse_number s.
Proof. now destruct s. Qed.

Lemma series_len_to_numeric (s : series) :
  series_len (to_numeric parse_number s) = series_len s.
Proof.
  destruct s as [v|v]; [reflexivity|].
  unfold series_len. simpl. now rewrite !length_map.
Qed.

Lemma length_numeric_values (s : series) :
  List.length (numeric_values parse_number s) = series_len s.
Proof. unfold numeric_values, series_len. apply length_map. Qed.

Lemma length_celsius_series (u : string) (v : list float) :
  List.length (celsius_series u v) = List.length v.
Proof.
  unfold celsius_series. destruct (u =? "°F"); [apply length_map | reflexivity].
Qed.

Lemma prepare_ok (df : table) (sel : selection) (t : series) :
  valid_selection df sel = true ->
  get_col (temp_col sel) df = Ok t ->
  exists work,
    prepare parse_number df sel = Ok work /\
    get_col "Temperature_C" work
    = Ok (Float64 (celsius_series (unit sel) (numeric_values parse_number t))) /\
    columns work = add_name "Temperature_C" (columns df) /\
    (forall n, n <> "Temperature_C" -> get_col n work = coerced_col parse_number df sel n).
Proof.
  intros Hvalid Ht.
  destruct (valid_selection_inv _ _ Hvalid) as (Htin & Hh & _ & _).
  unfold prepare. rewrite Ht. cbn [bind].
  set (w1 := set_col (temp_col sel) (to_numeric parse_number t) df).
  assert (Hw1 : forall n, get_col n w1
                          = if n =? temp_col sel then Ok (to_numeric parse_number t)
                            else get_col n df).
  { intros n. unfold w1. destruct (String.eqb_spec n (temp_col sel)) as [->|Hn].
    - apply get_set_same.
    - now apply get_set_other. }
  assert (Hc1 : columns w1 = columns df).
  { unfold w1. rewrite columns_set_col. now apply add_name_in. }
  assert (Hw2 : exists w2,
             (if negb (hum_col sel =? "<none>")
              then h <- get_col (hum_col sel) w1 ;;
                   Ok (set_col (hum_col sel) (to_numeric parse_number h) w1)
              else Ok w1) = Ok w2 /\
             columns w2 = columns df /\
             (forall n, get_col n w2 = coerced_col parse_number df sel n)).
  { unfold coerced_col.
    destruct (String.eqb_spec (hum_col sel) "<none>") as [Hnone|Hsel]; cbn [negb].
    - exists w1. repeat split; [assumption|]. intros n. rewrite Hw1.
      rewrite andb_false_l, orb_false_r.
      destruct (String.eqb_spec n (temp_col sel)) as [->|Hn]; [|reflexivity].
      now rewrite Ht.
    - destruct Hh as [Hh | Hh]; [congruence|].
      destruct (get_col_in _ _ Hh) as [h [Hget _]].
      assert (Hh1 : get_col (hum_col sel) w1
                    = Ok (if hum_col sel =? temp_col sel then to_numeric parse_number t else h)).
      { rewrite Hw1. now destruct (hum_col sel =? temp_col sel). }
      rewrite Hh1. cbn [bind]. eexists. split; [reflexivity|]. split.
      + rewrite columns_set_col, Hc1. now apply add_name_in.
      + intros n. rewrite andb_true_l.
        destruct (String.eqb_spec n (hum_col sel)) as [->|Hn].
        * rewrite get_set_same, orb_true_r, Hget. cbn [bind].
          destruct (String.eqb_spec (hum_col sel) (temp_col sel)) as [E|E];
            [|reflexivity].
          rewrite to_numeric_idem. rewrite E in Hget. congruence.
        * rewrite get_set_other by assumption. rewrite Hw1, orb_false_r.
          destruct (String.eqb_spec n (temp_col sel)) as [->|Hn'];
            [now rewrite Ht | reflexivity]. }
  destruct Hw2 as (w2 & -> & Hc2 & Hget2). cbn [bind].
  assert (Htc : get_col (temp_col sel) w2 = Ok (to_numeric parse_number t)).
  { rewrite Hget2. unfold coerced_col. now rewrite String.eqb_refl, Ht. }
  rewrite Htc. cbn [bind]. rewrite to_numeric_values.
  unfold celsius_series. cbn [series_arith].
  destruct (unit sel =? "°F"); cbn [bind]; eexists;
    (split; [reflexivity|]); (split; [apply get_set_same|]);
    (split; [now rewrite columns_set_col, Hc2|]);
    intros n Hn; rewrite get_set_other by assumption; apply Hget2.
Qed.

Lemma nth_error_celsius_series (u : string) (v : list float) (i : nat) (f : float) :
  nth_error v i = Some f ->
  nth_error (celsius_series u v) i
  = Some (if u =? "°F" then fahrenheit_to_celsius f else f).
Proof.
  intros H. unfold celsius_series. destruct (u =? "°F"); [|assumption].
  now rewrite nth_error_map, H.
Qed.

(** C1. The [Temperature_C] column of the working table is the coerced
    temperature series itself when the unit is Celsius; when the unit is
    Fahrenheit it has the same length and holds [(f - 32) * 5 / 9] wherever
    the coerced series holds [f]; under both units a missing value (NaN)
    stays missing. *)
Theorem celsius_column_spec (df : table) (sel : selection) (t : series) :
  valid_selection df sel = true ->
  get_col (temp_col sel) df = Ok t ->
  exists work c,
    prepare parse_number df sel = Ok work /\
    get_col "Temperature_C" work = Ok (Float64 c) /\
    (unit sel = "°C" -> c = numeric_values parse_number t) /\
    (unit sel = "°F" ->
     List.length c = List.length (numeric_values parse_number t) /\
     forall i f,
       nth_error (numeric_values parse_number t) i = Some f ->
       nth_error c i = Some ((f - 32) * 5 / 9)%float) /\
    (forall i f,
        nth_error (numeric_values parse_number t) i = Some f ->
        PrimFloat.is_nan f = true ->
        exists g, nth_error c i = Some g /\ PrimFloat.is_nan g = true).
Proof.
  intros Hvalid Ht.
  destruct (prepare_ok df sel t Hvalid Ht) as (work & Hprep & Hc & _).
  exists work, (celsius_series (unit sel) (numeric_values parse_number t)).
  split; [assumption|]. split; [assumption|]. split; [|split].
  - intros Hu. unfold celsius_series. now rewrite Hu.
  - intros Hu. split; [apply length_celsius_series|].
    intros i f Hf. rewrite (nth_error_celsius_series _ _ _ _ Hf).
    now rewrite Hu.
  - intros i f Hf Hnan. rewrite (nth_error_celsius_series _ _ _ _ Hf).
    eexists. split; [reflexivity|].
    destruct (unit sel =? "°F"); [now apply fahrenheit_to_celsius_nan | assumption].
Qed.

Lemma series_len_float64 (v : list float) :
  series_len (Float64 v) = List.length v.
Proof. unfold series_len. simpl. apply length_map. Qed.

Lemma work_col_len (df : table) (sel : selection) (work : table) :
  valid_selection df sel = true ->
  table_wf df = true ->
  prepare parse_number df sel = Ok work ->
  forall n s, get_col n work = Ok s -> series_len s = nrows df.
Proof.
  intros Hvalid Hwf Hprep n s Hs.
  destruct (valid_selection_inv _ _ Hvalid) as (Htin & _).
  destruct (get_col_in _ _ Htin) as [t [Ht Htdf]].
  destruct (prepare_ok df sel t Hvalid Ht) as (w & Hw & Hc & _ & Hother).
  rewrite Hprep in Hw. injection Hw as <-.
  destruct (String.eqb_spec n "Temperature_C") as [->|Hn].
  - rewrite Hc in Hs. injection Hs as <-.
    rewrite series_len_float64, length_celsius_series, length_numeric_values.
    now apply (table_wf_in df (temp_col sel)).
  - rewrite (Hother n Hn) in Hs. unfold coerced_col in Hs.
    destruct (get_col n df) as [s0|e] eqn:Hdf.
    + apply get_col_ok in Hdf. pose proof (table_wf_in _ _ _ Hwf Hdf) as Hlen.
      destruct ((n =? temp_col sel)
                || negb (hum_col sel =? "<none>") && (n =? hum_col sel));
        cbn [bind] in Hs; injection Hs as <-;
        [now rewrite series_len_to_numeric | assumption].
    + destruct ((n =? temp_col sel)
                || negb (hum_col sel =? "<none>") && (n =? hum_col sel));
        discriminate.
Qed.

Lemma work_has_col (df : table) (sel : selection) (work : table) (n : string) :
  valid_selection df sel = true ->
  prepare parse_number df sel = Ok work ->
  In n (columns df) ->
  exists s, get_col n work = Ok s.
Proof.
  intros Hvalid Hprep Hn.
  destruct (valid_selection_inv _ _ Hvalid) as (Htin & _).
  destruct (get_col_in _ _ Htin) as [t [Ht _]].
  destruct (prepare_ok df sel t Hvalid Ht) as (w & Hw & _ & Hcols & _).
  rewrite Hprep in Hw. injection Hw as <-.
  assert (Hin : In n (columns work)) by (rewrite Hcols; now apply in_add_name).
  destruct (get_col_in _ _ Hin) as [s [Hs _]]. eauto.
Qed.

Lemma length_x_index (parsed : nat -> option Z) (x : series) :
  List.length (x_index parsed x) = series_len x.
Proof.
  unfold x_index. rewrite length_map, length_combine, length_seq.
  unfold series_len. apply Nat.min_id.
Qed.

(** Lines 111-121 for a working table: the columns of the frame are the
    plotted series; without an X-axis column the frame is there, with the
    row numbers as index, and with one it is there when [pd.to_datetime]
    returns. *)
Lemma build_plot_eq (df : table) (sel : selection) (work : table) (tc : series) :
  valid_selection df sel = true ->
  table_wf df = true ->
  prepare parse_number df sel = Ok work ->
  get_col "Temperature_C" work = Ok tc ->
  exists hum,
    (hum_col sel = "<none>" -> hum = None) /\
    (hum_col sel <> "<none>" ->
     exists h, hum = Some h /\ get_col (hum_col sel) work = Ok h) /\
    (x_col sel = "<index>" ->
     build_plot to_datetime work sel
     = Ok {| index := map Row (seq 0 (nrows df));
             index_name := None;
             data := plotted tc hum |}) /\
    (x_col sel <> "<index>" ->
     exists x,
       get_col (x_col sel) work = Ok x /\
       series_len x = nrows df /\
       build_plot to_datetime work sel
       = (parsed <- to_datetime x ;;
          Ok {| index := x_index parsed x;
                index_name := Some (x_col sel);
                data := plotted tc hum |})).
Proof.
  intros Hvalid Hwf Hprep Htc.
  destruct (valid_selection_inv _ _ Hvalid) as (_ & Hh & Hx & _).
  pose proof (work_col_len df sel work Hvalid Hwf Hprep) as Hlen.
  unfold build_plot. rewrite Htc. cbn [bind].
  assert (Hhum : exists hum,
             (if negb (hum_col sel =? "<none>")
              then h <- get_col (hum_col sel) work ;;
                   Ok (frame_set_col "Humidity (%)" h
                         (new_frame "Temperature (°C)" tc))
              else Ok (new_frame "Temperature (°C)" tc))
             = Ok {| index := map Row (seq 0 (nrows df));
                     index_name := None;
                     data := plotted tc hum |} /\
             (hum_col sel = "<none>" -> hum = None) /\
             (hum_col sel <> "<none>" ->
              exists h, hum = Some h /\ get_col (hum_col sel) work = Ok h)).
  { destruct (String.eqb_spec (hum_col sel) "<none>") as [Hnone|Hsel]; cbn [negb].
    - exists None. unfold new_frame. rewrite (Hlen _ _ Htc).
      repeat split; congruence.
    - destruct Hh as [Hh | Hh]; [congruence|].
      destruct (work_has_col df sel work _ Hvalid Hprep Hh) as [h Hget].
      exists (Some h). rewrite Hget. cbn [bind].
      unfold new_frame, frame_set_col. rewrite (Hlen _ _ Htc).
      repeat split; [congruence | eauto]. }
  destruct Hhum as (hum & -> & Hnone & Hsome). cbn [bind].
  exists hum. split; [assumption|]. split; [assumption|].
  destruct (String.eqb_spec (x_col sel) "<index>") as [Hidx|Hxsel]; cbn [negb].
  - split; [reflexivity | congruence].
  - split; [congruence|]. intros _.
    destruct Hx as [Hx | Hx]; [congruence|].
    destruct (work_has_col df sel work _ Hvalid Hprep Hx) as [x Hget].
    exists x. rewrite Hget. cbn [bind].
    split; [reflexivity|]. split; [apply (Hlen _ _ Hget) | reflexivity].
Qed.

(** What a frame that lines 111-121 return looks like. *)
Lemma build_plot_shape (df : table) (sel : selection) (work : table)
  (tc : series) (pre : frame) :
  valid_selection df sel = true ->
  table_wf df = true ->
  prepare parse_number df sel = Ok work ->
  get_col "Temperature_C" work = Ok tc ->
  build_plot to_datetime work sel = Ok pre ->
  exists hum,
    data pre = plotted tc hum /\
    frame_nrows pre = nrows df /\
    (hum_col sel = "<none>" -> hum = None) /\
    (hum_col sel <> "<none>" ->
     exists h, hum = Some h /\ get_col (hum_col sel) work = Ok h) /\
    (x_col sel = "<index>" ->
     index pre = map Row (seq 0 (nrows df)) /\ index_name pre = None) /\
    (x_col sel <> "<index>" ->
     exists x parsed,
       get_col (x_col sel) work = Ok x /\
       to_datetime x = Ok parsed /\
       index pre = x_index parsed x /\
       index_name pre = Some (x_col sel)).
Proof.
  intros Hvalid Hwf Hprep Htc Hpre.
  destruct (build_plot_eq df sel work tc Hvalid Hwf Hprep Htc)
    as (hum & Hnone & Hsome & Hidx & Hx).
  exists hum.
  destruct (String.eqb_spec (x_col sel) "<index>") as [E|E].
  - rewrite (Hidx E) in Hpre. injection Hpre as <-. cbn [data index index_name].
    split; [reflexivity|]. split.
    { unfold frame_nrows. cbn [index]. now rewrite length_map, length_seq. }
    repeat split; auto. congruence.
  - destruct (Hx E) as (x & Hget & Hlen & Hbuild). rewrite Hbuild in Hpre.
    destruct (to_datetime x) as [parsed|e] eqn:Hparse; [|discriminate].
    cbn [bind] in Hpre. injection Hpre as <-. cbn [data index index_name].
    split; [reflexivity|]. split.
    { unfold frame_nrows. cbn [index]. now rewrite length_x_index. }
    split; [assumption|]. split; [assumption|]. split; [congruence|].
    intros _. exists x, parsed. auto.
Qed.

(** Lines 111-121 return when line 118 does. *)
Lemma build_plot_returns (df : table) (sel : selection) (work : table) :
  valid_selection df sel = true ->
  table_wf df = true ->
  prepare parse_number df sel = Ok work ->
  x_parses parse_number to_datetime df sel ->
  exists pre, build_plot to_datetime work sel = Ok pre.
Proof.
  intros Hvalid Hwf Hprep Hparses.
  destruct (valid_selection_inv _ _ Hvalid) as (Htin & _).
  destruct (get_col_in _ _ Htin) as [t [Ht _]].
  destruct (prepare_ok df sel t Hvalid Ht) as (w & Hw & Hc & _).
  rewrite Hprep in Hw. injection Hw as <-.
  destruct (build_plot_eq df sel work _ Hvalid Hwf Hprep Hc)
    as (hum & _ & _ & Hidx & Hx).
  destruct (String.eqb_spec (x_col sel) "<index>") as [E|E].
  - rewrite (Hidx E). eauto.
  - destruct Hparses as [Hp | (w & x & parsed & Hw & Hget & Hparse)];
      [congruence|].
    rewrite Hprep in Hw. injection Hw as <-.
    destruct (Hx E) as (x' & Hget' & _ & ->).
    rewrite Hget in Hget'. injection Hget' as <-.
    rewrite Hparse. cbn [bind]. eauto.
Qed.

(** Lines 111-121 raise exactly what line 118 raises. *)
Lemma build_plot_raises (df : table) (sel : selection) (work : table) (e : exn) :
  valid_selection df sel = true ->
  table_wf df = true ->
  prepare parse_number df sel = Ok work ->
  build_plot to_datetime work sel = Raise e <->
  x_col sel <> "<index>" /\
  exists x, get_col (x_col sel) work = Ok x /\ to_datetime x = Raise e.
Proof.
  intros Hvalid Hwf Hprep.
  destruct (valid_selection_inv _ _ Hvalid) as (Htin & _).
  destruct (get_col_in _ _ Htin) as [t [Ht _]].
  destruct (prepare_ok df sel t Hvalid Ht) as (w & Hw & Hc & _).
  rewrite Hprep in Hw. injection Hw as <-.
  destruct (build_plot_eq df sel work _ Hvalid Hwf Hprep Hc)
    as (hum & _ & _ & Hidx & Hx).
  destruct (String.eqb_spec (x_col sel) "<index>") as [E|E].
  - rewrite (Hidx E). split; [discriminate | intros [H _]; congruence].
  - destruct (Hx E) as (x & Hget & _ & ->). split.
    + intros H. split; [assumption|]. exists x. split; [assumption|].
      destruct (to_datetime x); [discriminate | now injection H as ->].
    + intros (_ & x' & Hget' & Hparse).
      rewrite Hget in Hget'. injection Hget' as <-. now rewrite Hparse.
Qed.

(** C3. [dropna(how="all")] removes a row of the plotting frame exactly when
    every plotted series, the Celsius temperature and the humidity when a
    humidity column is selected, is missing in that row: the rows kept are
    those with a plotted value, so a row with a temperature and no humidity
    stays and a row with nothing goes; the kept rows keep their order, index
    and values. The frame is there when line 118 returns. *)
Theorem dropna_rows_spec (df : table) (sel : selection) :
  valid_selection df sel = true ->
  table_wf df = true ->
  x_parses parse_number to_datetime df sel ->
  exists work tc pre hum,
    prepare parse_number df sel = Ok work /\
    get_col "Temperature_C" work = Ok tc /\
    build_plot to_datetime work sel = Ok pre /\
    data pre = plotted tc hum /\
    (hum_col sel = "<none>" -> hum = None) /\
    (hum_col sel <> "<none>" ->
     exists h, hum = Some h /\ get_col (hum_col sel) work = Ok h) /\
    (forall i,
        In i (kept_rows pre) <->
        i < nrows df /\ all_plotted_missing tc hum i = false) /\
    (forall i,
        i < nrows df -> entry_isna tc i = false -> In i (kept_rows pre)) /\
    index (dropna_all pre) = pick (index pre) (kept_rows pre) /\
    data (dropna_all pre)
    = map (fun c => (fst c, series_pick (snd c) (kept_rows pre))) (data pre).
Proof.
  intros Hvalid Hwf Hparses.
  destruct (valid_selection_inv _ _ Hvalid) as (Htin & _).
  destruct (get_col_in _ _ Htin) as [t [Ht _]].
  destruct (prepare_ok df sel t Hvalid Ht) as (work & Hprep & Hc & _).
  destruct (build_plot_returns df sel work Hvalid Hwf Hprep Hparses)
    as (pre & Hpre).
  destruct (build_plot_shape df sel work _ pre Hvalid Hwf Hprep Hc Hpre)
    as (hum & Hdata & Hn & Hnone & Hsome & _).
  assert (Hkept : forall i,
             In i (kept_rows pre) <->
             i < nrows df /\
             all_plotted_missing
               (Float64 (celsius_series (unit sel) (numeric_values parse_number t)))
               hum i = false).
  { intros i. now rewrite in_kept_rows, Hn, Hdata, row_all_na_plotted. }
  exists work, (Float64 (celsius_series (unit sel) (numeric_values parse_number t))),
    pre, hum.
  split; [exact Hprep|]. split; [exact Hc|]. split; [exact Hpre|].
  split; [exact Hdata|]. split; [exact Hnone|]. split; [exact Hsome|].
  split; [exact Hkept|]. split; [|apply dropna_all_pick].
  intros i Hi Hna. apply Hkept. split; [assumption|].
  unfold all_plotted_missing. now rewrite Hna.
Qed.

(** ** The page *)

(** Rows without a temperature are the only rows that can be dropped: the
    temperatures of the kept rows are those of the whole series. *)
Lemma dropna_keeps_temperatures (pre : frame) (c : list float)
  (hum : option series) :
  data pre = plotted (Float64 c) hum ->
  frame_nrows pre = List.length c ->
  dropna_values (select (keep_mask pre) c) = dropna_values c.
Proof.
  intros Hdata Hn. unfold keep_mask, dropna_values. rewrite Hn.
  apply filter_select_keep. intros i x Hx Hq. cbn [Nat.add].
  rewrite Hdata, row_all_na_plotted. unfold all_plotted_missing.
  rewrite (entry_isna_float64 c i x Hx).
  apply negb_true_iff in Hq. now rewrite Hq.
Qed.

(** The page for a table with rows. An exception of lines 111-121 ends it.
    Otherwise it is the error when no Celsius value is there, and else the
    dashboard of the temperature series of the frame after [dropna], which
    has the Celsius values that are there, with the working table and the
    export. *)
Lemma run_cases (df : table) (sel : selection) (t : series) :
  valid_selection df sel = true ->
  table_wf df = true ->
  df_empty df = false ->
  get_col (temp_col sel) df = Ok t ->
  exists work out,
    prepare parse_number df sel = Ok work /\
    export_table work = Ok out /\
    out = set_col "Temperature (°C)"
            (Float64 (celsius_series (unit sel) (numeric_values parse_number t)))
            work /\
    (forall e, build_plot to_datetime work sel = Raise e ->
               run parse_number to_datetime np_sum to_csv df sel = Raise e) /\
    (forall pre,
        build_plot to_datetime work sel = Ok pre ->
        dropna_values
          (select (keep_mask pre)
             (celsius_series (unit sel) (numeric_values parse_number t)))
        = dropna_values (celsius_series (unit sel) (numeric_values parse_number t)) /\
        run parse_number to_datetime np_sum to_csv df sel
        = match dropna_values
                  (celsius_series (unit sel) (numeric_values parse_number t)) with
          | [] => Ok [no_data_error]
          | _ :: _ =>
              Ok (dashboard np_sum to_csv
                    (select (keep_mask pre)
                       (celsius_series (unit sel) (numeric_values parse_number t)))
                    (dropna_all pre) work out)
          end).
Proof.
  intros Hvalid Hwf Hempty Ht.
  destruct (prepare_ok df sel t Hvalid Ht) as (work & Hprep & Hc & _).
  set (c := celsius_series (unit sel) (numeric_values parse_number t)) in *.
  assert (Hlen : List.length c = nrows df).
  { rewrite <- series_len_float64.
    apply (work_col_len df sel work Hvalid Hwf Hprep _ _ Hc). }
  exists work, (set_col "Temperature (°C)" (Float64 c) work).
  split; [assumption|].
  assert (Hout : export_table work
                 = Ok (set_col "Temperature (°C)" (Float64 c) work)).
  { unfold export_table. now rewrite Hc. }
  split; [assumption|]. split; [reflexivity|]. split.
  { intros e He. unfold run. rewrite Hempty, Hprep. cbn [bind].
    now rewrite He. }
  intros pre Hpre.
  destruct (build_plot_shape df sel work _ pre Hvalid Hwf Hprep Hc Hpre)
    as (hum & Hdata & Hn & _).
  assert (Hkeep : dropna_values (select (keep_mask pre) c) = dropna_values c).
  { apply (dropna_keeps_temperatures pre c hum Hdata). congruence. }
  split; [exact Hkeep|].
  unfold run. rewrite Hempty, Hprep. cbn [bind]. rewrite Hpre. cbn [bind].
  assert (Htc : get_col "Temperature (°C)" (data (dropna_all pre))
                = Ok (Float64 (select (keep_mask pre) c))).
  { unfold dropna_all. cbn [data]. rewrite Hdata. unfold plotted.
    cbn [map fst snd get_col]. now rewrite String.eqb_refl. }
  rewrite Htc. cbn [bind float_values].
  rewrite series_dropna_float64, series_len_float64, Hout. cbn [bind].
  rewrite Hkeep.
  destruct (dropna_values c) as [|x xs] eqn:Hvals.
  - cbn [List.length Nat.eqb]. now rewrite orb_true_r.
  - cbn [List.length Nat.eqb]. rewrite orb_false_r.
    assert (Hx : In x (dropna_values c)) by (rewrite Hvals; now left).
    unfold dropna_values in Hx. apply filter_In in Hx. destruct Hx as [Hx Hq].
    apply In_nth_error in Hx. destruct Hx as [i Hi].
    assert (Hi' : i < List.length c).
    { apply nth_error_Some. congruence. }
    assert (Hidx : index (dropna_all pre) <> []).
    { unfold dropna_all, keep_mask. cbn [index].
      apply (select_not_nil _ _ i); [unfold frame_nrows in *; lia
                                    | unfold frame_nrows in *; lia |].
      rewrite Hdata, row_all_na_plotted. unfold all_plotted_missing.
      rewrite (entry_isna_float64 c i x Hi).
      apply negb_true_iff in Hq. now rewrite Hq. }
    unfold frame_empty, frame_nrows.
    replace (data (dropna_all pre))
      with (map (fun c0 => (fst c0, series_select (keep_mask pre) (snd c0)))
                (data pre)) by reflexivity.
    rewrite Hdata. unfold plotted. cbn [map List.length Nat.eqb orb].
    destruct (index (dropna_all pre)); [congruence | reflexivity].
Qed.

(** The page when line 118 returns. *)
Lemma run_returns (df : table) (sel : selection) (t : series) :
  valid_selection df sel = true ->
  table_wf df = true ->
  df_empty df = false ->
  get_col (temp_col sel) df = Ok t ->
  x_parses parse_number to_datetime df sel ->
  exists work pre out,
    prepare parse_number df sel = Ok work /\
    build_plot to_datetime work sel = Ok pre /\
    export_table work = Ok out /\
    run parse_number to_datetime np_sum to_csv df sel
    = match dropna_values
              (celsius_series (unit sel) (numeric_values parse_number t)) with
      | [] => Ok [no_data_error]
      | _ :: _ =>
          Ok (dashboard np_sum to_csv
                (select (keep_mask pre)
                   (celsius_series (unit sel) (numeric_values parse_number t)))
                (dropna_all pre) work out)
      end.
Proof.
  intros Hvalid Hwf Hempty Ht Hparses.
  destruct (run_cases df sel t Hvalid Hwf Hempty Ht)
    as (work & out & Hprep & Hout & _ & _ & Hok).
  destruct (build_plot_returns df sel work Hvalid Hwf Hprep Hparses)
    as (pre & Hpre).
  exists work, pre, out. repeat (split; [assumption|]).
  apply (Hok pre Hpre).
Qed.

(** What the page is when it ends without an exception. *)
Lemma run_ok_inv (df : table) (sel : selection) (t : series)
  (events : list ui_event) :
  valid_selection df sel = true ->
  table_wf df = true ->
  get_col (temp_col sel) df = Ok t ->
  run parse_number to_datetime np_sum to_csv df sel = Ok events ->
  events = [empty_warning] \/
  events = [no_data_error] \/
  dropna_values (celsius_series (unit sel) (numeric_values parse_number t)) <> [] /\
  exists work pre out,
    prepare parse_number df sel = Ok work /\
    build_plot to_datetime work sel = Ok pre /\
    export_table work = Ok out /\
    dropna_values
      (select (keep_mask pre)
         (celsius_series (unit sel) (numeric_values parse_number t)))
    = dropna_values (celsius_series (unit sel) (numeric_values parse_number t)) /\
    events = dashboard np_sum to_csv
               (select (keep_mask pre)
                  (celsius_series (unit sel) (numeric_values parse_number t)))
               (dropna_all pre) work out.
Proof.
  intros Hvalid Hwf Ht Hrun. destruct (df_empty df) eqn:Hempty.
  { unfold run in Hrun. rewrite Hempty in Hrun. injection Hrun as <-. auto. }
  destruct (run_cases df sel t Hvalid Hwf Hempty Ht)
    as (work & out & Hprep & Hout & _ & Hraise & Hok).
  destruct (build_plot to_datetime work sel) as [pre|e] eqn:Hpre.
  - destruct (Hok pre eq_refl) as [Hkeep Hrun']. rewrite Hrun' in Hrun.
    destruct (dropna_values (celsius_series (unit sel)
                               (numeric_values parse_number t))) as [|x xs].
    + injection Hrun as <-. auto.
    + injection Hrun as <-. right. right. split; [discriminate|].
      exists work, pre, out. auto.
  - rewrite (Hraise e eq_refl) in Hrun. discriminate.
Qed.
Lemma dropna_values_nil (v : list float) :
  dropna_values v = [] <-> all_missing v.
Proof.
  unfold dropna_values, all_missing. induction v as [|x v IH]; simpl.
  - split; [intros _ f [] | reflexivity].
  - destruct (PrimFloat.is_nan x) eqn:Hx; simpl.
    + rewrite IH. split.
      * intros H f [<- | Hf]; auto.
      * intros H f Hf. apply H. now right.
    + split; [discriminate|]. intros H.
      specialize (H x (or_introl eq_refl)). congruence.
Qed.

Lemma all_missing_entries (v : list float) :
  (forall i, i < List.length v -> entry_isna (Float64 v) i = true) ->
  all_missing v.
Proof.
  intros H f Hf. apply In_nth_error in Hf. destruct Hf as [i Hi].
  rewrite <- (entry_isna_float64 v i f Hi). apply H.
  apply nth_error_Some. congruence.
Qed.

Lemma all_missing_celsius (u : string) (v : list float) :
  all_missing v -> all_missing (celsius_series u v).
Proof.
  unfold celsius_series. destruct (u =? "°F"); [|auto].
  intros H f Hf. apply in_map_iff in Hf. destruct Hf as [x [<- Hx]].
  apply fahrenheit_to_celsius_nan. auto.
Qed.

Lemma all_missing_text (t : series) :
  (forall x, In x (items t) -> exists s, x = Str s /\ parse_number s = None) ->
  all_missing (numeric_values parse_number t).
Proof.
  intros H f Hf. unfold numeric_values in Hf. apply in_map_iff in Hf.
  destruct Hf as [x [<- Hx]]. destruct (H x Hx) as [s [-> Hs]].
  simpl. now rewrite Hs.
Qed.

(** C4. For a table with rows: when no row of the frame has a temperature
    after coercion, conversion and [dropna], the page shows the error of
    line 127 and nothing else, no statistic. When line 118 returns this is
    so whenever the whole Celsius series is missing, in particular for a
    temperature column of texts that are no numbers. The error is not the
    warning that a table without rows gets. When [pd.to_datetime] raises at
    line 118, nothing catches the exception: the page ends in it and shows
    neither the error nor anything else. *)
Theorem no_usable_data_error (df : table) (sel : selection) (t : series) :
  valid_selection df sel = true ->
  table_wf df = true ->
  df_empty df = false ->
  get_col (temp_col sel) df = Ok t ->
  (forall work pre tc,
      prepare parse_number df sel = Ok work ->
      build_plot to_datetime work sel = Ok pre ->
      get_col "Temperature (°C)" (data (dropna_all pre)) = Ok tc ->
      (forall i, i < series_len tc -> entry_isna tc i = true) ->
      run parse_number to_datetime np_sum to_csv df sel = Ok [no_data_error]) /\
  (x_parses parse_number to_datetime df sel ->
   all_missing (celsius_series (unit sel) (numeric_values parse_number t)) ->
   run parse_number to_datetime np_sum to_csv df sel = Ok [no_data_error]) /\
  (x_parses parse_number to_datetime df sel ->
   (forall x, In x (items t) -> exists s, x = Str s /\ parse_number s = None) ->
   run parse_number to_datetime np_sum to_csv df sel = Ok [no_data_error]) /\
  (forall df', df_empty df' = true ->
               run parse_number to_datetime np_sum to_csv df' sel
               = Ok [empty_warning]) /\
  no_data_error <> empty_warning /\
  (forall name value, no_data_error <> Metric name value) /\
  (forall work x e,
      prepare parse_number df sel = Ok work ->
      x_col sel <> "<index>" ->
      get_col (x_col sel) work = Ok x ->
      to_datetime x = Raise e ->
      run parse_number to_datetime np_sum to_csv df sel = Raise e).
Proof.
  intros Hvalid Hwf Hempty Ht.
  destruct (run_cases df sel t Hvalid Hwf Hempty Ht)
    as (work & out & Hprep & _ & _ & Hraise & Hok).
  assert (Hall : x_parses parse_number to_datetime df sel ->
                 all_missing (celsius_series (unit sel)
                                (numeric_values parse_number t)) ->
                 run parse_number to_datetime np_sum to_csv df sel
                 = Ok [no_data_error]).
  { intros Hparses H. apply dropna_values_nil in H.
    destruct (build_plot_returns df sel work Hvalid Hwf Hprep Hparses)
      as (pre & Hpre).
    destruct (Hok pre Hpre) as [_ Hrun]. now rewrite Hrun, H. }
  split; [|split; [exact Hall | split; [|split; [|split; [|split]]]]].
  - intros work' pre tc Hprep' Hpre Htc Hna.
    rewrite Hprep in Hprep'. injection Hprep' as <-.
    destruct (prepare_ok df sel t Hvalid Ht) as (w & Hw & Hc & _).
    rewrite Hprep in Hw. injection Hw as <-.
    destruct (build_plot_shape df sel work _ pre Hvalid Hwf Hprep Hc Hpre)
      as (hum & Hdata & Hn & _).
    destruct (Hok pre Hpre) as [Hkeep Hrun].
    set (c := celsius_series (unit sel) (numeric_values parse_number t)) in *.
    assert (Htc' : tc = Float64 (select (keep_mask pre) c)).
    { unfold dropna_all in Htc. cbn [data] in Htc. rewrite Hdata in Htc.
      unfold plotted in Htc. cbn [map fst snd get_col] in Htc.
      rewrite String.eqb_refl in Htc. cbn [series_select] in Htc. congruence. }
    subst tc. rewrite series_len_float64 in Hna.
    apply all_missing_entries in Hna. apply dropna_values_nil in Hna.
    rewrite Hkeep in Hna. now rewrite Hrun, Hna.
  - intros Hparses Htext. apply (Hall Hparses). apply all_missing_celsius.
    now apply all_missing_text.
  - intros df' Hdf'. unfold run. now rewrite Hdf'.
  - discriminate.
  - discriminate.
  - intros work' x e Hprep' Hx Hget Hparse.
    rewrite Hprep in Hprep'. injection Hprep' as <-.
    apply Hraise. apply (build_plot_raises df sel work e Hvalid Hwf Hprep).
    split; [assumption|]. eauto.
Qed.
(** ** The export *)

Lemma export_table_ok (df : table) (sel : selection) (t : series) :
  valid_selection df sel = true ->
  get_col (temp_col sel) df = Ok t ->
  exists work out,
    prepare parse_number df sel = Ok work /\
    export_table work = Ok out /\
    out = set_col "Temperature (°C)"
            (Float64 (celsius_series (unit sel) (numeric_values parse_number t)))
            work /\
    columns out
    = add_name "Temperature (°C)" (add_name "Temperature_C" (columns df)).
Proof.
  intros Hvalid Ht.
  destruct (prepare_ok df sel t Hvalid Ht) as (work & Hprep & Hc & Hcols & _).
  exists work. eexists. split; [assumption|].
  unfold export_table. rewrite Hc. cbn [bind].
  split; [reflexivity|]. split; [reflexivity|].
  now rewrite columns_set_col, Hcols.
Qed.

Lemma in_dashboard_download (temps : list float) (plot_df : frame)
  (work out : table) (d : download) :
  In (DownloadButton d) (dashboard np_sum to_csv temps plot_df work out) <->
  d = download_button to_csv out.
Proof.
  unfold dashboard. cbn [In]. split.
  - intros H. repeat (destruct H as [H | H]; [try discriminate|]);
      [now injection H | destruct H].
  - intros ->. do 6 right. now left.
Qed.

(** C6, as the code has it. When there is a temperature to show, the page
    offers one download: the file [weather_processed.csv] of MIME type
    [text/csv], holding the CSV text of a table whose columns are the loaded
    columns, a column [Temperature_C] and a column [Temperature (°C)], both
    with the Celsius series; the two are new last columns, in this order,
    when the loaded table has no column of either name, and a loaded column
    of such a name is written over in its place. The page gets there when
    line 118 returns. *)
Theorem download_file_spec (df : table) (sel : selection) (t : series) :
  valid_selection df sel = true ->
  table_wf df = true ->
  df_empty df = false ->
  get_col (temp_col sel) df = Ok t ->
  x_parses parse_number to_datetime df sel ->
  ~ all_missing (celsius_series (unit sel) (numeric_values parse_number t)) ->
  exists events work out,
    run parse_number to_datetime np_sum to_csv df sel = Ok events /\
    prepare parse_number df sel = Ok work /\
    export_table work = Ok out /\
    (forall d, In (DownloadButton d) events <-> d = download_button to_csv out) /\
    file_name (download_button to_csv out) = "weather_processed.csv" /\
    mime (download_button to_csv out) = "text/csv" /\
    file_data (download_button to_csv out) = to_csv out /\
    columns out
    = add_name "Temperature (°C)" (add_name "Temperature_C" (columns df)) /\
    (~ In "Temperature_C" (columns df) ->
     ~ In "Temperature (°C)" (columns df) ->
     columns out = columns df ++ ["Temperature_C"; "Temperature (°C)"]) /\
    get_col "Temperature_C" out
    = Ok (Float64 (celsius_series (unit sel) (numeric_values parse_number t))) /\
    get_col "Temperature (°C)" out
    = Ok (Float64 (celsius_series (unit sel) (numeric_values parse_number t))).
Proof.
  intros Hvalid Hwf Hempty Ht Hparses Hsome.
  destruct (run_returns df sel t Hvalid Hwf Hempty Ht Hparses)
    as (work & pre & out & Hprep & Hpre & Hout & Hrun).
  destruct (export_table_ok df sel t Hvalid Ht)
    as (work' & out' & Hprep' & Hout' & Heq & Hcols).
  rewrite Hprep in Hprep'. injection Hprep' as <-.
  rewrite Hout in Hout'. injection Hout' as <-.
  destruct (dropna_values (celsius_series (unit sel)
                             (numeric_values parse_number t))) as [|x xs] eqn:Hv.
  { exfalso. apply Hsome. now apply dropna_values_nil. }
  eexists _, work, out. split; [exact Hrun|].
  split; [assumption|]. split; [assumption|].
  split; [intros d; apply in_dashboard_download|].
  split; [reflexivity|]. split; [reflexivity|]. split; [reflexivity|].
  split; [assumption|]. split; [|split].
  - intros H1 H2. rewrite Hcols, (add_name_fresh _ _ H1).
    rewrite add_name_fresh.
    + now rewrite <- app_assoc.
    + intros Hin. apply in_app_or in Hin. destruct Hin as [Hin | [Hin | []]];
        [contradiction | discriminate].
  - destruct (prepare_ok df sel t Hvalid Ht) as (w & Hw & Hc & _).
    rewrite Hprep in Hw. injection Hw as <-.
    rewrite Heq, get_set_other by discriminate. exact Hc.
  - rewrite Heq. apply get_set_same.
Qed.

Lemma get_col_head (t : table) :
  t <> [] -> exists n s, get_col n t = Ok s /\ series_len s = nrows t.
Proof.
  destruct t as [|[n s] t]; [congruence|]. intros _. exists n, s.
  simpl. now rewrite String.eqb_refl.
Qed.

(** C9. The table that is written out has a row for every row of the loaded
    table, in each of its columns: [dropna] works on the plotting frame, the
    export is the working table with its rows as loaded, whichever rows the
    chart lost. *)
Theorem export_keeps_rows (df : table) (sel : selection) :
  valid_selection df sel = true ->
  table_wf df = true ->
  exists work out,
    prepare parse_number df sel = Ok work /\
    export_table work = Ok out /\
    nrows out = nrows df /\
    (forall n s, get_col n out = Ok s -> series_len s = nrows df) /\
    (forall events d,
        run parse_number to_datetime np_sum to_csv df sel = Ok events ->
        In (DownloadButton d) events ->
        file_data d = to_csv out).
Proof.
  intros Hvalid Hwf.
  destruct (valid_selection_inv _ _ Hvalid) as (Htin & _).
  destruct (get_col_in _ _ Htin) as [t [Ht _]].
  destruct (export_table_ok df sel t Hvalid Ht)
    as (work & out & Hprep & Hout & Heq & _).
  destruct (prepare_ok df sel t Hvalid Ht) as (w & Hw & Hc & _).
  rewrite Hprep in Hw. injection Hw as <-.
  pose proof (work_col_len df sel work Hvalid Hwf Hprep) as Hlen.
  assert (Hcols : forall n s, get_col n out = Ok s -> series_len s = nrows df).
  { intros n s Hs. rewrite Heq in Hs.
    destruct (String.eqb_spec n "Temperature (°C)") as [->|Hn].
    - rewrite get_set_same in Hs. injection Hs as <-. apply (Hlen _ _ Hc).
    - rewrite get_set_other in Hs by assumption. apply (Hlen _ _ Hs). }
  exists work, out. split; [assumption|]. split; [assumption|].
  split; [|split; [exact Hcols|]].
  - assert (Hne : out <> []) by (rewrite Heq; apply set_col_not_nil).
    destruct (get_col_head out Hne) as (n & s & Hs & <-). now apply (Hcols n).
  - intros events d Hrun Hd.
    destruct (run_ok_inv df sel t events Hvalid Hwf Ht Hrun)
      as [-> | [-> | (_ & work' & pre & out' & Hprep' & _ & Hout' & _ & ->)]].
    + destruct Hd as [Hd | []]. discriminate.
    + destruct Hd as [Hd | []]. discriminate.
    + rewrite Hprep in Hprep'. injection Hprep' as <-.
      rewrite Hout in Hout'. injection Hout' as <-.
      apply in_dashboard_download in Hd. now subst d.
Qed.

Lemma selected_col_iff (sel : selection) (n : string) :
  (n =? temp_col sel) || negb (hum_col sel =? "<none>") && (n =? hum_col sel)
  = true <-> selected_col sel n.
Proof.
  unfold selected_col.
  rewrite orb_true_iff, andb_true_iff, negb_true_iff, !String.eqb_eq.
  rewrite String.eqb_neq. reflexivity.
Qed.




(** ** Statistics *)

Lemma dropna_values_idem (v : list float) :
  dropna_values (dropna_values v) = dropna_values v.
Proof.
  unfold dropna_values. induction v as [|x v IH]; [reflexivity|]. simpl.
  destruct (PrimFloat.is_nan x) eqn:Hx; simpl; [assumption|].
  now rewrite Hx, IH.
Qed.

Lemma dropna_values_skip (v1 v2 : list float) :
  dropna_values (v1 ++ PrimFloat.nan :: v2) = dropna_values (v1 ++ v2).
Proof. unfold dropna_values. now rewrite !filter_app. Qed.

Lemma in_dashboard_metric (temps : list float) (plot_df : frame)
  (work out : table) (name : string) (value : float) :
  In (Metric name value) (dashboard np_sum to_csv temps plot_df work out) ->
  name = "Average Temp (°C)" /\ value = mean np_sum temps \/
  name = "Min Temp (°C)" /\ value = smin temps \/
  name = "Max Temp (°C)" /\ value = smax temps.
Proof.
  unfold dashboard. cbn [In]. intros [H | [H | [H | H]]].
  - injection H as <- <-. auto.
  - injection H as <- <-. auto.
  - injection H as <- <-. auto.
  - repeat (destruct H as [H | H]; [discriminate|]). destruct H.
Qed.

Lemma in_dashboard_list (temps : list float) (plot_df : frame)
  (work out : table) (l : list float) :
  In (TemperatureList l) (dashboard np_sum to_csv temps plot_df work out) ->
  l = firstn 1000 (dropna_values temps).
Proof.
  unfold dashboard. cbn [In]. intros H.
  repeat (destruct H as [H | H]; [try discriminate|]);
    [congruence | destruct H].
Qed.

Lemma smin_smax_ext (a b : list float) :
  dropna_values a = dropna_values b -> smin a = smin b /\ smax a = smax b.
Proof. intros H. unfold smin, smax. now rewrite H. Qed.

Lemma mean_some (v : list float) :
  dropna_values v <> [] ->
  mean np_sum v
  = (np_sum (fillna_zero v) / float_of_nat (List.length (dropna_values v)))%float.
Proof.
  intros H. unfold mean. destruct (dropna_values v); [congruence | reflexivity].
Qed.

Lemma nth_error_fillna_zero (v : list float) (i : nat) (f : float) :
  nth_error v i = Some f ->
  nth_error (fillna_zero v) i
  = Some (if PrimFloat.is_nan f then 0%float else f).
Proof. intros H. unfold fillna_zero. now rewrite nth_error_map, H. Qed.

Lemma length_dropna_values (v : list float) :
  List.length (dropna_values v) + List.length (filter PrimFloat.is_nan v)
  = List.length v.
Proof.
  unfold dropna_values. induction v as [|a v IH]; [reflexivity|].
  cbn [filter]. destruct (PrimFloat.is_nan a); cbn [negb List.length]; lia.
Qed.

(** C8. For the rows [{temp: 32, hum: 50}] and [{temp: 212, hum: 10}] in
    Fahrenheit the Celsius series is [0.0, 100.0] and the page shows the mean
    50.0, the minimum 0.0 and the maximum 100.0, the sum of 0.0 and 100.0
    being 100.0 in whatever order numpy adds. The three statistics are those
    of the values that are not missing: the average is the sum of the
    temperature series of the frame, with 0 in place of each missing value,
    over the number of values that are there, which is the number of
    entries less the missing ones; the minimum and the maximum are values
    that are there and bound all of them. *)
Theorem boiling_scenario :
  np_sum [0; 100]%float = 100%float ->
  (exists work,
      prepare parse_number boiling_df boiling_sel = Ok work /\
      get_col "Temperature_C" work = Ok (Float64 [0; 100]%float)) /\
  (exists plot_df work out,
      run parse_number to_datetime np_sum to_csv boiling_df boiling_sel
      = Ok [Metric "Average Temp (°C)" 50%float;
            Metric "Min Temp (°C)" 0%float;
            Metric "Max Temp (°C)" 100%float;
            LineChart plot_df;
            DataFrameView work;
            TemperatureList [0; 100]%float;
            DownloadButton (download_button to_csv out)]) /\
  (forall df sel t events name value,
      valid_selection df sel = true ->
      table_wf df = true ->
      get_col (temp_col sel) df = Ok t ->
      run parse_number to_datetime np_sum to_csv df sel = Ok events ->
      In (Metric name value) events ->
      exists work pre temps,
        prepare parse_number df sel = Ok work /\
        build_plot to_datetime work sel = Ok pre /\
        get_col "Temperature (°C)" (data (dropna_all pre)) = Ok (Float64 temps) /\
        dropna_values temps
        = dropna_values
            (celsius_series (unit sel) (numeric_values parse_number t)) /\
        dropna_values temps <> [] /\
        (name = "Average Temp (°C)" /\
         value = (np_sum (fillna_zero temps)
                  / float_of_nat (List.length (dropna_values temps)))%float \/
         name = "Min Temp (°C)" /\
         In value (dropna_values temps) /\
         (forall y, In y (dropna_values temps) -> (y <? value)%float = false) \/
         name = "Max Temp (°C)" /\
         In value (dropna_values temps) /\
         (forall y, In y (dropna_values temps) -> (value <? y)%float = false))) /\
  (forall v,
      List.length (fillna_zero v) = List.length v /\
      forall i f,
        nth_error v i = Some f ->
        nth_error (fillna_zero v) i
        = Some (if PrimFloat.is_nan f then 0%float else f)) /\
  (forall v,
      List.length (dropna_values v) + List.length (filter PrimFloat.is_nan v)
      = List.length v /\
      forall y,
        In y (dropna_values v) <-> In y v /\ PrimFloat.is_nan y = false).
Proof.
  intros Hsum. split; [|split; [|split; [|split]]].
  - eexists. split; reflexivity.
  - remember (run parse_number to_datetime np_sum to_csv boiling_df boiling_sel)
      as r eqn:Hr.
    vm_compute in Hr. rewrite Hsum in Hr. subst r.
    eexists _, _, _. reflexivity.
  - intros df sel t events name value Hvalid Hwf Ht Hrun Hin.
    destruct (run_ok_inv df sel t events Hvalid Hwf Ht Hrun)
      as [-> | [-> | (Hsome & work & pre & out & Hprep & Hpre & _ & Hkeep & ->)]].
    { destruct Hin as [H | []]. discriminate. }
    { destruct Hin as [H | []]. discriminate. }
    set (c := celsius_series (unit sel) (numeric_values parse_number t)) in *.
    destruct (prepare_ok df sel t Hvalid Ht) as (w & Hw & Hc & _).
    rewrite Hprep in Hw. injection Hw as <-.
    destruct (build_plot_shape df sel work _ pre Hvalid Hwf Hprep Hc Hpre)
      as (hum & Hdata & _).
    exists work, pre, (select (keep_mask pre) c).
    split; [assumption|]. split; [assumption|]. split.
    { unfold dropna_all. cbn [data]. rewrite Hdata. unfold plotted.
      cbn [map fst snd get_col]. now rewrite String.eqb_refl. }
    split; [exact Hkeep|]. rewrite Hkeep. split; [exact Hsome|].
    assert (Hsome' : dropna_values (select (keep_mask pre) c) <> [])
      by now rewrite Hkeep.
    destruct (smin_smax_bounds _ Hsome') as (Hmin & Hmax & Hbound).
    rewrite Hkeep in Hmin, Hmax, Hbound.
    apply in_dashboard_metric in Hin.
    destruct Hin as [[-> ->] | [[-> ->] | [-> ->]]].
    + left. split; [reflexivity|]. rewrite (mean_some _ Hsome').
      now rewrite Hkeep.
    + right. left. split; [reflexivity|]. split; [assumption|].
      intros y Hy. now apply Hbound.
    + right. right. split; [reflexivity|]. split; [assumption|].
      intros y Hy. now apply Hbound.
  - intros v. split; [apply length_map|].
    intros i f. apply nth_error_fillna_zero.
  - intros v. split; [apply length_dropna_values|].
    intros y. unfold dropna_values. rewrite filter_In, negb_true_iff.
    reflexivity.
Qed.

End SessionFacts.

(** ** The properties at the sample inputs *)


Lemma celsius_column_witness :
  valid_selection boiling_df boiling_sel = true /\
  get_col (temp_col boiling_sel) boiling_df = Ok (Float64 [32; 212]%float) /\
  (exists work c,
    prepare sample_parse boiling_df boiling_sel = Ok work /\
    get_col "Temperature_C" work = Ok (Float64 c) /\
    (unit boiling_sel = "°C" -> c = numeric_values sample_parse (Float64 [32; 212]%float)) /\
    (unit boiling_sel = "°F" ->
     List.length c = List.length (numeric_values sample_parse (Float64 [32; 212]%float)) /\
     forall i f,
       nth_error (numeric_values sample_parse (Float64 [32; 212]%float)) i = Some f ->
       nth_error c i = Some ((f - 32) * 5 / 9)%float) /\
    (forall i f,
        nth_error (numeric_values sample_parse (Float64 [32; 212]%float)) i = Some f ->
        PrimFloat.is_nan f = true ->
        exists g, nth_error c i = Some g /\ PrimFloat.is_nan g = true)).
Proof.
  split; [solve [reflexivity | discriminate | (cbn; tauto) | (left; reflexivity)
          | (right; eexists _, _, _; split; [reflexivity | split; reflexivity])]|].
  split; [solve [reflexivity | discriminate | (cbn; tauto) | (left; reflexivity)
          | (right; eexists _, _, _; split; [reflexivity | split; reflexivity])]|].
  apply (celsius_column_spec sample_parse boiling_df boiling_sel (Float64 [32; 212]%float));
    solve [reflexivity | discriminate | (cbn; tauto) | (left; reflexivity)
          | (right; eexists _, _, _; split; [reflexivity | split; reflexivity])].
Defined.

Lemma dropna_rows_witness :
  valid_selection gaps_df gaps_sel = true /\
  table_wf gaps_df = true /\
  x_parses sample_parse sample_to_datetime gaps_df gaps_sel /\
  (exists work tc pre hum,
    prepare sample_parse gaps_df gaps_sel = Ok work /\
    get_col "Temperature_C" work = Ok tc /\
    build_plot sample_to_datetime work gaps_sel = Ok pre /\
    data pre = plotted tc hum /\
    (hum_col gaps_sel = "<none>" -> hum = None) /\
    (hum_col gaps_sel <> "<none>" ->
     exists h, hum = Some h /\ get_col (hum_col gaps_sel) work = Ok h) /\
    (forall i,
        In i (kept_rows pre) <->
        i < nrows gaps_df /\ all_plotted_missing tc hum i = false) /\
    (forall i,
        i < nrows gaps_df -> entry_isna tc i = false -> In i (kept_rows pre)) /\
    index (dropna_all pre) = pick (index pre) (kept_rows pre) /\
    data (dropna_all pre)
    = map (fun c => (fst c, series_pick (snd c) (kept_rows pre))) (data pre)).
Proof.
  split; [solve [reflexivity | discriminate | (cbn; tauto) | (left; reflexivity)
          | (right; eexists _, _, _; split; [reflexivity | split; reflexivity])]|].
  split; [solve [reflexivity | discriminate | (cbn; tauto) | (left; reflexivity)
          | (right; eexists _, _, _; split; [reflexivity | split; reflexivity])]|].
  split; [solve [reflexivity | discriminate | (cbn; tauto) | (left; reflexivity)
          | (right; eexists _, _, _; split; [reflexivity | split; reflexivity])]|].
  apply (dropna_rows_spec sample_parse sample_to_datetime gaps_df gaps_sel);
    solve [reflexivity | discriminate | (cbn; tauto) | (left; reflexivity)
          | (right; eexists _, _, _; split; [reflexivity | split; reflexivity])].
Defined.

(** The three rows of [gaps_df]: the first two are kept, the last is dropped. *)
Example dropna_gaps :
  exists work pre,
    prepare sample_parse gaps_df gaps_sel = Ok work /\
    build_plot sample_to_datetime work gaps_sel = Ok pre /\
    data pre = [("Temperature (°C)", Float64 [50%float; PrimFloat.nan; PrimFloat.nan]);
                ("Humidity (%)", Float64 [PrimFloat.nan; 5%float; PrimFloat.nan])] /\
    kept_rows pre = [0; 1] /\
    dropna_all pre
    = {| index := [Row 0; Row 1];
         index_name := None;
         data := [("Temperature (°C)", Float64 [50%float; PrimFloat.nan]);
                  ("Humidity (%)", Float64 [PrimFloat.nan; 5%float])] |}.
Proof. eexists _, _. repeat split. Qed.

Lemma no_usable_data_witness :
  valid_selection offsets_df offsets_sel = true /\
  table_wf offsets_df = true /\
  df_empty offsets_df = false /\
  get_col (temp_col offsets_sel) offsets_df = Ok (Object [Str "n/a"; Str "warm"]) /\
  ((forall work pre tc,
      prepare sample_parse offsets_df offsets_sel = Ok work ->
      build_plot offsets_to_datetime work offsets_sel = Ok pre ->
      get_col "Temperature (°C)" (data (dropna_all pre)) = Ok tc ->
      (forall i, i < series_len tc -> entry_isna tc i = true) ->
      run sample_parse offsets_to_datetime fsum sample_to_csv offsets_df offsets_sel = Ok [no_data_error]) /\
  (x_parses sample_parse offsets_to_datetime offsets_df offsets_sel ->
   all_missing (celsius_series (unit offsets_sel) (numeric_values sample_parse (Object [Str "n/a"; Str "warm"]))) ->
   run sample_parse offsets_to_datetime fsum sample_to_csv offsets_df offsets_sel = Ok [no_data_error]) /\
  (x_parses sample_parse offsets_to_datetime offsets_df offsets_sel ->
   (forall x, In x (items (Object [Str "n/a"; Str "warm"])) -> exists s, x = Str s /\ sample_parse s = None) ->
   run sample_parse offsets_to_datetime fsum sample_to_csv offsets_df offsets_sel = Ok [no_data_error]) /\
  (forall df', df_empty df' = true ->
               run sample_parse offsets_to_datetime fsum sample_to_csv df' offsets_sel
               = Ok [empty_warning]) /\
  no_data_error <> empty_warning /\
  (forall name value, no_data_error <> Metric name value) /\
  (forall work x e,
      prepare sample_parse offsets_df offsets_sel = Ok work ->
      x_col offsets_sel <> "<index>" ->
      get_col (x_col offsets_sel) work = Ok x ->
      offsets_to_datetime x = Raise e ->
      run sample_parse offsets_to_datetime fsum sample_to_csv offsets_df offsets_sel = Raise e)).
Proof.
  split; [solve [reflexivity | discriminate | (cbn; tauto) | (left; reflexivity)
          | (right; eexists _, _, _; split; [reflexivity | split; reflexivity])]|].
  split; [solve [reflexivity | discriminate | (cbn; tauto) | (left; reflexivity)
          | (right; eexists _, _, _; split; [reflexivity | split; reflexivity])]|].
  split; [solve [reflexivity | discriminate | (cbn; tauto) | (left; reflexivity)
          | (right; eexists _, _, _; split; [reflexivity | split; reflexivity])]|].
  split; [solve [reflexivity | discriminate | (cbn; tauto) | (left; reflexivity)
          | (right; eexists _, _, _; split; [reflexivity | split; reflexivity])]|].
  apply (no_usable_data_error sample_parse offsets_to_datetime fsum sample_to_csv offsets_df offsets_sel (Object [Str "n/a"; Str "warm"]));
    solve [reflexivity | discriminate | (cbn; tauto) | (left; reflexivity)
          | (right; eexists _, _, _; split; [reflexivity | split; reflexivity])].
Defined.

(** A column of texts that are no numbers, under both units; a table
    without rows. *)
Example no_usable_data_text :
  run sample_parse sample_to_datetime fsum sample_to_csv text_df text_sel
  = Ok [no_data_error] /\
  run sample_parse sample_to_datetime fsum sample_to_csv text_df
      {| temp_col := "temp"; hum_col := "<none>"; unit := "°F";
         x_col := "<index>" |}
  = Ok [no_data_error] /\
  run sample_parse sample_to_datetime fsum sample_to_csv
      [("temp", Object []); ("hum", Object [])] text_sel
  = Ok [empty_warning].
Proof. repeat split. Qed.

(** The same column of texts beside a time column of two UTC offsets: with
    the time column on the X axis the page ends in the exception of
    line 118, with the row index on the X axis it shows the error. *)
Example no_usable_data_offsets :
  valid_selection offsets_df offsets_sel = true /\
  default_selection Str.ascii_lower (columns offsets_df) = Some offsets_sel /\
  run sample_parse offsets_to_datetime fsum sample_to_csv offsets_df offsets_sel
  = Raise ValueError /\
  run sample_parse offsets_to_datetime fsum sample_to_csv offsets_df
      {| temp_col := "temp"; hum_col := "<none>"; unit := "°C";
         x_col := "<index>" |}
  = Ok [no_data_error].
Proof. repeat split. Qed.

(** The export of the two-row table has the intermediate column
    [Temperature_C] besides the loaded columns and [Temperature (°C)]. *)
Lemma export_columns_counterexample :
  ~ export_columns_exact sample_parse boiling_df boiling_sel.
Proof.
  unfold export_columns_exact. intros H.
  specialize (H (set_col "Temperature_C" (Float64 [0; 100]%float) boiling_df)
                (set_col "Temperature (°C)" (Float64 [0; 100]%float)
                   (set_col "Temperature_C" (Float64 [0; 100]%float) boiling_df))
                eq_refl eq_refl).
  vm_compute in H. discriminate.
Qed.

Example export_columns_boiling :
  exists plot_df work,
    run sample_parse sample_to_datetime fsum sample_to_csv boiling_df boiling_sel
    = Ok [Metric "Average Temp (°C)" 50%float;
          Metric "Min Temp (°C)" 0%float;
          Metric "Max Temp (°C)" 100%float;
          LineChart plot_df;
          DataFrameView work;
          TemperatureList [0; 100]%float;
          DownloadButton
            {| button_label := "Download CSV (with Temperature °C)";
               file_data := "temp,hum,Temperature_C,Temperature (°C)";
               file_name := "weather_processed.csv";
               mime := "text/csv" |}].
Proof. eexists _, _. reflexivity. Qed.

Lemma boiling_not_all_missing :
  ~ all_missing (celsius_series (unit boiling_sel)
                   (numeric_values sample_parse (Float64 [32; 212]%float))).
Proof.
  intros H. specialize (H 0%float (or_introl eq_refl)). discriminate.
Defined.

Lemma download_file_witness :
  valid_selection boiling_df boiling_sel = true /\
  table_wf boiling_df = true /\
  df_empty boiling_df = false /\
  get_col (temp_col boiling_sel) boiling_df = Ok (Float64 [32; 212]%float) /\
  x_parses sample_parse sample_to_datetime boiling_df boiling_sel /\
  ~ all_missing (celsius_series (unit boiling_sel) (numeric_values sample_parse (Float64 [32; 212]%float))) /\
  (exists events work out,
    run sample_parse sample_to_datetime fsum sample_to_csv boiling_df boiling_sel = Ok events /\
    prepare sample_parse boiling_df boiling_sel = Ok work /\
    export_table work = Ok out /\
    (forall d, In (DownloadButton d) events <-> d = download_button sample_to_csv out) /\
    file_name (download_button sample_to_csv out) = "weather_processed.csv" /\
    mime (download_button sample_to_csv out) = "text/csv" /\
    file_data (download_button sample_to_csv out) = sample_to_csv out /\
    columns out
    = add_name "Temperature (°C)" (add_name "Temperature_C" (columns boiling_df)) /\
    (~ In "Temperature_C" (columns boiling_df) ->
     ~ In "Temperature (°C)" (columns boiling_df) ->
     columns out = columns boiling_df ++ ["Temperature_C"; "Temperature (°C)"]) /\
    get_col "Temperature_C" out
    = Ok (Float64 (celsius_series (unit boiling_sel) (numeric_values sample_parse (Float64 [32; 212]%float)))) /\
    get_col "Temperature (°C)" out
    = Ok (Float64 (celsius_series (unit boiling_sel) (numeric_values sample_parse (Float64 [32; 212]%float))))).
Proof.
  split; [solve [reflexivity | discriminate | (cbn; tauto) | (left; reflexivity)
          | (right; eexists _, _, _; split; [reflexivity | split; reflexivity]) | exact boiling_not_all_missing]|].
  split; [solve [reflexivity | discriminate | (cbn; tauto) | (left; reflexivity)
          | (right; eexists _, _, _; split; [reflexivity | split; reflexivity]) | exact boiling_not_all_missing]|].
  split; [solve [reflexivity | discriminate | (cbn; tauto) | (left; reflexivity)
          | (right; eexists _, _, _; split; [reflexivity | split; reflexivity]) | exact boiling_not_all_missing]|].
  split; [solve [reflexivity | discriminate | (cbn; tauto) | (left; reflexivity)
          | (right; eexists _, _, _; split; [reflexivity | split; reflexivity]) | exact boiling_not_all_missing]|].
  split; [solve [reflexivity | discriminate | (cbn; tauto) | (left; reflexivity)
          | (right; eexists _, _, _; split; [reflexivity | split; reflexivity]) | exact boiling_not_all_missing]|].
  split; [solve [reflexivity | discriminate | (cbn; tauto) | (left; reflexivity)
          | (right; eexists _, _, _; split; [reflexivity | split; reflexivity]) | exact boiling_not_all_missing]|].
  apply (download_file_spec sample_parse sample_to_datetime fsum sample_to_csv boiling_df boiling_sel (Float64 [32; 212]%float));
    solve [reflexivity | discriminate | (cbn; tauto) | (left; reflexivity)
          | (right; eexists _, _, _; split; [reflexivity | split; reflexivity]) | exact boiling_not_all_missing].
Defined.

Lemma export_keeps_rows_witness :
  valid_selection gaps_df gaps_sel = true /\
  table_wf gaps_df = true /\
  (exists work out,
    prepare sample_parse gaps_df gaps_sel = Ok work /\
    export_table work = Ok out /\
    nrows out = nrows gaps_df /\
    (forall n s, get_col n out = Ok s -> series_len s = nrows gaps_df) /\
    (forall events d,
        run sample_parse sample_to_datetime fsum sample_to_csv gaps_df gaps_sel = Ok events ->
        In (DownloadButton d) events ->
        file_data d = sample_to_csv out)).
Proof.
  split; [solve [reflexivity | discriminate | (cbn; tauto) | (left; reflexivity)
          | (right; eexists _, _, _; split; [reflexivity | split; reflexivity])]|].
  split; [solve [reflexivity | discriminate | (cbn; tauto) | (left; reflexivity)
          | (right; eexists _, _, _; split; [reflexivity | split; reflexivity])]|].
  apply (export_keeps_rows sample_parse sample_to_datetime fsum sample_to_csv gaps_df gaps_sel);
    solve [reflexivity | discriminate | (cbn; tauto) | (left; reflexivity)
          | (right; eexists _, _, _; split; [reflexivity | split; reflexivity])].
Defined.

(** The chart of [gaps_df] has two rows, its export has the three rows. *)
Example export_keeps_rows_gaps :
  exists plot_df work out,
    run sample_parse sample_to_datetime fsum sample_to_csv gaps_df gaps_sel
    = Ok (dashboard fsum sample_to_csv [50%float; PrimFloat.nan] plot_df work out) /\
    frame_nrows plot_df = 2 /\
    export_table work = Ok out /\
    out = [("temp", Float64 [50%float; PrimFloat.nan; PrimFloat.nan]);
           ("hum", Float64 [PrimFloat.nan; 5%float; PrimFloat.nan]);
           ("Temperature_C", Float64 [50%float; PrimFloat.nan; PrimFloat.nan]);
           ("Temperature (°C)", Float64 [50%float; PrimFloat.nan; PrimFloat.nan])] /\
    nrows out = 3.
Proof. eexists _, _, _. repeat split. Qed.



Lemma boiling_scenario_witness :
  fsum [0; 100]%float = 100%float /\
  ((exists work,
      prepare sample_parse boiling_df boiling_sel = Ok work /\
      get_col "Temperature_C" work = Ok (Float64 [0; 100]%float)) /\
  (exists plot_df work out,
      run sample_parse sample_to_datetime fsum sample_to_csv boiling_df boiling_sel
      = Ok [Metric "Average Temp (°C)" 50%float;
            Metric "Min Temp (°C)" 0%float;
            Metric "Max Temp (°C)" 100%float;
            LineChart plot_df;
            DataFrameView work;
            TemperatureList [0; 100]%float;
            DownloadButton (download_button sample_to_csv out)]) /\
  (forall df sel t events name value,
      valid_selection df sel = true ->
      table_wf df = true ->
      get_col (temp_col sel) df = Ok t ->
      run sample_parse sample_to_datetime fsum sample_to_csv df sel = Ok events ->
      In (Metric name value) events ->
      exists work pre temps,
        prepare sample_parse df sel = Ok work /\
        build_plot sample_to_datetime work sel = Ok pre /\
        get_col "Temperature (°C)" (data (dropna_all pre)) = Ok (Float64 temps) /\
        dropna_values temps
        = dropna_values
            (celsius_series (unit sel) (numeric_values sample_parse t)) /\
        dropna_values temps <> [] /\
        (name = "Average Temp (°C)" /\
         value = (fsum (fillna_zero temps)
                  / float_of_nat (List.length (dropna_values temps)))%float \/
         name = "Min Temp (°C)" /\
         In value (dropna_values temps) /\
         (forall y, In y (dropna_values temps) -> (y <? value)%float = false) \/
         name = "Max Temp (°C)" /\
         In value (dropna_values temps) /\
         (forall y, In y (dropna_values temps) -> (value <? y)%float = false))) /\
  (forall v,
      List.length (fillna_zero v) = List.length v /\
      forall i f,
        nth_error v i = Some f ->
        nth_error (fillna_zero v) i
        = Some (if PrimFloat.is_nan f then 0%float else f)) /\
  (forall v,
      List.length (dropna_values v) + List.length (filter PrimFloat.is_nan v)
      = List.length v /\
      forall y,
        In y (dropna_values v) <-> In y v /\ PrimFloat.is_nan y = false)).
Proof.
  split; [solve [reflexivity | discriminate | (cbn; tauto) | (left; reflexivity)
          | (right; eexists _, _, _; split; [reflexivity | split; reflexivity])]|].
  apply (boiling_scenario sample_parse sample_to_datetime fsum sample_to_csv);
    solve [reflexivity | discriminate | (cbn; tauto) | (left; reflexivity)
          | (right; eexists _, _, _; split; [reflexivity | split; reflexivity])].
Defined.

(** The mean leaves the missing values out of the sum and of the count. *)
Example mean_gaps :
  mean fsum [50%float; PrimFloat.nan; 68%float] = 59%float /\
  smin [50%float; PrimFloat.nan; 68%float] = 50%float /\
  smax [50%float; PrimFloat.nan; 68%float] = 68%float /\
  PrimFloat.is_nan (mean fsum [PrimFloat.nan]) = true.
Proof. repeat split. Qed.

(** * Further properties *)

(** ** The guesses of the sidebar *)

Section GuessFacts.

Variable lower : string -> string.

Lemma first_match_loop_app (cols s1 s2 : list string) :
  first_match_loop cols (map lower cols) (s1 ++ s2)
  = match first_match_loop cols (map lower cols) s1 with
    | Some c => Some c
    | None => first_match_loop cols (map lower cols) s2
    end.
Proof.
  pose proof (first_match_loop_sound lower cols s1) as Hs1.
  destruct (first_match_loop cols (map lower cols) s1) as [c|].
  - destruct Hs1 as (a & sub & b & -> & Ha & Hhit).
    rewrite <- app_assoc. cbn [app].
    now apply first_match_loop_complete.
  - now apply first_match_loop_skip.
Qed.

(** X1. Candidate substrings are tried in order of priority: the guess for a
    list of candidates followed by more candidates is the guess for the first
    list when that has one, and the guess for the others otherwise. *)
Theorem first_match_app (cols s1 s2 : list string) :
  first_match lower cols (s1 ++ s2)
  = match first_match lower cols s1 with
    | Some c => Some c
    | None => first_match lower cols s2
    end.
Proof. unfold first_match. apply first_match_loop_app. Qed.

Lemma first_match_in (cols subs : list string) (c : string) :
  first_match lower cols subs = Some c -> In c cols.
Proof.
  unfold first_match. intros H.
  pose proof (first_match_loop_sound lower cols subs) as Hs.
  rewrite H in Hs. destruct Hs as (_ & _ & _ & _ & _ & (c1 & c2 & -> & _)).
  apply in_elt.
Qed.

Lemma first_match_loop_same_lowered (cols cols' subs : list string) :
  map lower cols = map lower cols' ->
  match first_match_loop cols (map lower cols) subs,
        first_match_loop cols' (map lower cols') subs with
  | Some c, Some c' =>
      exists i, nth_error cols i = Some c /\ nth_error cols' i = Some c'
  | None, None => True
  | _, _ => False
  end.
Proof.
  intros Hlow. rewrite <- Hlow.
  assert (Hlen : List.length cols = List.length cols').
  { rewrite <- (length_map lower cols), Hlow. apply length_map. }
  induction subs as [|sub subs IH]; cbn [first_match_loop]; [exact I|].
  destruct (first_index_from sub (map lower cols) 0) as [j|] eqn:Hj; [|exact IH].
  destruct (first_index_from_some lower _ _ _ _ Hj) as (c1 & c & c2 & Hc & -> & _).
  assert (Hj' : List.length c1 < List.length cols).
  { rewrite Hc, length_app. cbn [List.length]. lia. }
  cbn [Nat.add].
  destruct (nth_error cols (List.length c1)) as [x|] eqn:Hx;
    [|apply nth_error_None in Hx; lia].
  destruct (nth_error cols' (List.length c1)) as [x'|] eqn:Hx';
    [|apply nth_error_None in Hx'; lia].
  exists (List.length c1). auto.
Qed.

(** X2. The guess looks at the column names through their lowered form
    only: two headers with the same lowered names, such as headers that
    differ in letter case, get their guess at the same position, or both get
    none. *)
Theorem first_match_same_lowered (cols cols' subs : list string) :
  map lower cols = map lower cols' ->
  match first_match lower cols subs, first_match lower cols' subs with
  | Some c, Some c' =>
      exists i, nth_error cols i = Some c /\ nth_error cols' i = Some c'
  | None, None => True
  | _, _ => False
  end.
Proof. unfold first_match. apply first_match_loop_same_lowered. Qed.

Lemma occurs_in_timestamp (s : string) :
  occurs_in "timestamp" s -> occurs_in "time" s.
Proof.
  intros (a & b & ->). exists a, ("stamp" ++ b)%string.
  reflexivity.
Qed.

Lemma first_match_none_sub (cols : list string) (sub sub' : string) :
  (forall s, occurs_in sub' s -> occurs_in sub s) ->
  first_match lower cols [sub] = None ->
  first_match lower cols [sub'] = None.
Proof.
  unfold first_match. cbn [first_match_loop]. intros Himp H.
  destruct (first_index_from sub (map lower cols) 0) as [j|] eqn:Hj.
  { destruct (first_index_from_some lower _ _ _ _ Hj) as (c1 & c & c2 & -> & -> & _).
    cbn [Nat.add] in H. rewrite nth_error_app2 in H by lia.
    rewrite Nat.sub_diag in H. discriminate. }
  assert (Hnone : first_index_from sub' (map lower cols) 0 = None).
  { apply first_index_from_none. intros c Hc. apply contains_false_iff.
    intros Hocc. apply Himp in Hocc. apply contains_iff in Hocc.
    rewrite (proj1 (first_index_from_none lower sub cols 0) Hj c Hc) in Hocc.
    discriminate. }
  now rewrite Hnone.
Qed.

(** X3. The fourth candidate of the X-axis guess never decides: a name
    that holds "timestamp" holds "time", which is tried before, so the guess
    is the one for "date", "time" and "day". *)
Theorem x_guess_three_candidates (cols : list string) :
  x_guess lower cols = first_match lower cols ["date"; "time"; "day"].
Proof.
  unfold x_guess.
  destruct (first_match lower cols ["date"; "time"; "day"]) as [c|] eqn:H;
    unfold first_match in *.
  - change ["date"; "time"; "day"; "timestamp"]
      with (["date"; "time"; "day"] ++ ["timestamp"]).
    now rewrite first_match_loop_app, H.
  - change ["date"; "time"; "day"; "timestamp"]
      with (["date"; "time"; "day"] ++ ["timestamp"]).
    rewrite first_match_loop_app, H.
    apply (first_match_none_sub cols "time" "timestamp" occurs_in_timestamp).
    unfold first_match.
    change ["date"; "time"; "day"] with (["date"] ++ ["time"] ++ ["day"]) in H.
    rewrite !first_match_loop_app in H.
    destruct (first_match_loop cols (map lower cols) ["date"]); [discriminate|].
    destruct (first_match_loop cols (map lower cols) ["time"]);
      [discriminate | reflexivity].
Qed.

End GuessFacts.

Lemma first_match_same_lowered_witness :
  map Str.ascii_lower ["Date"; "Air Temp"] = map Str.ascii_lower ["DATE"; "air temp"] /\
  match first_match Str.ascii_lower ["Date"; "Air Temp"] ["temp"],
        first_match Str.ascii_lower ["DATE"; "air temp"] ["temp"] with
  | Some c, Some c' =>
      exists i, nth_error ["Date"; "Air Temp"] i = Some c /\
                nth_error ["DATE"; "air temp"] i = Some c'
  | None, None => True
  | _, _ => False
  end.
Proof.
  split; [reflexivity|].
  apply (first_match_same_lowered Str.ascii_lower
           ["Date"; "Air Temp"] ["DATE"; "air temp"] ["temp"]).
  reflexivity.
Defined.

(** ** The select boxes *)

Lemma list_index_lookup (options : list string) (v : string) :
  In v options ->
  exists i, list_index options v = Ok (Z.of_nat i) /\
            nth_error options i = Some v.
Proof.
  induction options as [|o options IH]; [intros []|]. intros Hin.
  cbn [list_index]. destruct (String.eqb_spec o v) as [->|Hne].
  - now exists 0.
  - destruct Hin as [Ho | Hin]; [congruence|].
    destruct (IH Hin) as (i & Hi & Hnth). exists (S i). rewrite Hi.
    cbn [bind nth_error]. split; [f_equal; lia | assumption].
Qed.

(** A box whose options are [pre] followed by the columns, started at the
    guess with the offset [length pre] and the fallback 0. *)
Lemma box_start (pre cols : list string) (guess : option string) :
  pre ++ cols <> [] ->
  (forall c, guess = Some c -> In c cols) ->
  exists n o,
    safe_index cols guess (Z.of_nat (List.length pre)) 0 = Ok n /\
    (0 <= n < Z.of_nat (List.length (pre ++ cols)))%Z /\
    selectbox_default (pre ++ cols) n = Some o /\
    (forall c, guess = Some c -> o = c) /\
    (guess = None -> nth_error (pre ++ cols) 0 = Some o).
Proof.
  intros Hne Hin. destruct guess as [c|].
  - destruct (list_index_lookup cols c (Hin c eq_refl)) as (i & Hi & Hnth).
    exists (Z.of_nat (List.length pre) + Z.of_nat i)%Z, c.
    assert (Hlt : i < List.length cols) by (apply nth_error_Some; congruence).
    split; [unfold safe_index; now rewrite Hi|].
    split; [rewrite length_app; lia|]. split; [|split; [congruence | discriminate]].
    unfold selectbox_default.
    destruct (Z.ltb_spec (Z.of_nat (List.length pre) + Z.of_nat i) 0); [lia|].
    replace (Z.to_nat (Z.of_nat (List.length pre) + Z.of_nat i))
      with (List.length pre + i) by lia.
    rewrite nth_error_app2 by lia.
    now replace (List.length pre + i - List.length pre) with i by lia.
  - destruct (pre ++ cols) as [|o rest] eqn:Hopts; [congruence|].
    exists 0%Z, o. cbn [List.length]. repeat split; try lia; try discriminate.
Qed.

Section SelectBoxes.

Variable lower : string -> string.

Lemma default_selection_ok (cols : list string) :
  cols <> [] ->
  exists ti hi xi sel,
    (temp_idx lower cols = Ok ti /\
     hum_idx lower cols = Ok hi /\
     x_idx lower cols = Ok xi) /\
    ((0 <= ti < Z.of_nat (List.length cols))%Z /\
     (0 <= hi < 1 + Z.of_nat (List.length cols))%Z /\
     (0 <= xi < 1 + Z.of_nat (List.length cols))%Z) /\
    default_selection lower cols = Some sel /\
    (In (temp_col sel) cols /\
     In (hum_col sel) ("<none>" :: cols) /\
     In (x_col sel) ("<index>" :: cols)) /\
    ((forall c, temp_guess lower cols = Some c -> temp_col sel = c) /\
     (temp_guess lower cols = None -> nth_error cols 0 = Some (temp_col sel)) /\
     (forall c, hum_guess lower cols = Some c -> hum_col sel = c) /\
     (hum_guess lower cols = None -> hum_col sel = "<none>") /\
     (forall c, x_guess lower cols = Some c -> x_col sel = c) /\
     (x_guess lower cols = None -> x_col sel = "<index>") /\
     unit sel = "°C").
Proof.
  intros Hne.
  destruct (box_start [] cols (temp_guess lower cols))
    as (ti & t & Hti & Htr & Htb & Hts & Htn);
    [exact Hne | intros c; apply first_match_in |].
  destruct (box_start ["<none>"] cols (hum_guess lower cols))
    as (hi & h & Hhi & Hhr & Hhb & Hhs & Hhn);
    [discriminate | intros c; apply first_match_in |].
  destruct (box_start ["<index>"] cols (x_guess lower cols))
    as (xi & x & Hxi & Hxr & Hxb & Hxs & Hxn);
    [discriminate | intros c; apply first_match_in |].
  cbn [app List.length] in *.
  exists ti, hi, xi, {| temp_col := t; hum_col := h; unit := "°C"; x_col := x |}.
  unfold default_selection, temp_idx, hum_idx, x_idx.
  change (Z.of_nat 0) with 0%Z in Hti. change (Z.of_nat 1) with 1%Z in Hhi, Hxi.
  rewrite Hti, Hhi, Hxi, Htb, Hhb, Hxb. cbn [temp_col hum_col x_col unit].
  assert (Hin : forall options n o,
             selectbox_default options n = Some o -> In o options).
  { intros options n o. unfold selectbox_default.
    destruct (n <? 0)%Z; [discriminate | apply nth_error_In]. }
  split; [auto|]. split; [lia|]. split; [reflexivity|].
  split; [repeat split; eapply Hin; eassumption|].
  split; [exact Hts|]. split; [exact Htn|]. split; [exact Hhs|].
  split; [intros Hg; specialize (Hhn Hg); now injection Hhn|].
  split; [exact Hxs|].
  split; [intros Hg; specialize (Hxn Hg); now injection Hxn | reflexivity].
Qed.

(** X4. With a header that has a column, the three column boxes start at a
    position of their options: at the guessed column when there is a guess,
    and otherwise at the first column for the temperature and at the marker
    of "no column" for the humidity and the X axis; the unit box starts at
    Celsius. *)
Theorem default_selection_spec (cols : list string) :
  cols <> [] ->
  exists ti hi xi sel,
    temp_idx lower cols = Ok ti /\
    hum_idx lower cols = Ok hi /\
    x_idx lower cols = Ok xi /\
    (0 <= ti < Z.of_nat (List.length cols))%Z /\
    (0 <= hi < 1 + Z.of_nat (List.length cols))%Z /\
    (0 <= xi < 1 + Z.of_nat (List.length cols))%Z /\
    default_selection lower cols = Some sel /\
    (forall c, temp_guess lower cols = Some c -> temp_col sel = c) /\
    (temp_guess lower cols = None -> nth_error cols 0 = Some (temp_col sel)) /\
    (forall c, hum_guess lower cols = Some c -> hum_col sel = c) /\
    (hum_guess lower cols = None -> hum_col sel = "<none>") /\
    (forall c, x_guess lower cols = Some c -> x_col sel = c) /\
    (x_guess lower cols = None -> x_col sel = "<index>") /\
    unit sel = "°C".
Proof.
  intros Hne.
  destruct (default_selection_ok cols Hne)
    as (ti & hi & xi & sel & (H1 & H2 & H3) & (H4 & H5 & H6) & H7 & _ & H8).
  exists ti, hi, xi, sel. tauto.
Qed.

End SelectBoxes.

Lemma default_selection_witness :
  sample_cols <> [] /\
  exists ti hi xi sel,
    temp_idx Str.ascii_lower sample_cols = Ok ti /\
    hum_idx Str.ascii_lower sample_cols = Ok hi /\
    x_idx Str.ascii_lower sample_cols = Ok xi /\
    (0 <= ti < Z.of_nat (List.length sample_cols))%Z /\
    (0 <= hi < 1 + Z.of_nat (List.length sample_cols))%Z /\
    (0 <= xi < 1 + Z.of_nat (List.length sample_cols))%Z /\
    default_selection Str.ascii_lower sample_cols = Some sel /\
    (forall c, temp_guess Str.ascii_lower sample_cols = Some c -> temp_col sel = c) /\
    (temp_guess Str.ascii_lower sample_cols = None ->
     nth_error sample_cols 0 = Some (temp_col sel)) /\
    (forall c, hum_guess Str.ascii_lower sample_cols = Some c -> hum_col sel = c) /\
    (hum_guess Str.ascii_lower sample_cols = None -> hum_col sel = "<none>") /\
    (forall c, x_guess Str.ascii_lower sample_cols = Some c -> x_col sel = c) /\
    (x_guess Str.ascii_lower sample_cols = None -> x_col sel = "<index>") /\
    unit sel = "°C".
Proof.
  split; [discriminate|].
  apply (default_selection_spec Str.ascii_lower sample_cols). discriminate.
Defined.

(** The page of the sample header starts with these choices. *)
Example default_selection_sample :
  default_selection Str.ascii_lower sample_cols
  = Some {| temp_col := "Air Temp"; hum_col := "Humidity"; unit := "°C";
            x_col := "Date" |} /\
  default_selection Str.ascii_lower ["a"; "b"]
  = Some {| temp_col := "a"; hum_col := "<none>"; unit := "°C";
            x_col := "<index>" |}.
Proof. split; reflexivity. Qed.

Lemma entry_isna_celsius (u : string) (v : list float) (i : nat) :
  entry_isna (Float64 (celsius_series u v)) i = entry_isna (Float64 v) i.
Proof.
  destruct (nth_error v i) as [f|] eqn:Hf.
  - rewrite (entry_isna_float64 v i f Hf).
    rewrite (entry_isna_float64 _ i _ (nth_error_celsius_series u v i f Hf)).
    destruct (u =? "°F"); [apply fahrenheit_to_celsius_is_nan | reflexivity].
  - unfold entry_isna. cbn [items]. rewrite !nth_error_map, Hf.
    assert (Hc : nth_error (celsius_series u v) i = None).
    { apply nth_error_None. rewrite length_celsius_series.
      now apply nth_error_None. }
    now rewrite Hc.
Qed.

Lemma all_missing_celsius_iff (u : string) (v : list float) :
  all_missing (celsius_series u v) <-> all_missing v.
Proof.
  split; [|apply all_missing_celsius].
  unfold celsius_series. destruct (u =? "°F"); [|auto].
  intros H f Hf. rewrite <- fahrenheit_to_celsius_is_nan.
  apply H. now apply in_map.
Qed.


(** ** The page, continued *)

Section SessionExtras.

Variable parse_number : string -> option float.
Variable to_datetime : series -> result (nat -> option Z).
Variable np_sum : list float -> float.
Variable to_csv : table -> string.

(** The page ends in an exception exactly when line 118 does. *)
Lemma run_raises (df : table) (sel : selection) (t : series) (e : exn) :
  valid_selection df sel = true ->
  table_wf df = true ->
  get_col (temp_col sel) df = Ok t ->
  run parse_number to_datetime np_sum to_csv df sel = Raise e <->
  df_empty df = false /\
  x_col sel <> "<index>" /\
  exists work x,
    prepare parse_number df sel = Ok work /\
    get_col (x_col sel) work = Ok x /\
    to_datetime x = Raise e.
Proof.
  intros Hvalid Hwf Ht. destruct (df_empty df) eqn:Hempty.
  { split; [|intros [H _]; discriminate].
    unfold run. rewrite Hempty. discriminate. }
  destruct (run_cases parse_number to_datetime np_sum to_csv df sel t
              Hvalid Hwf Hempty Ht)
    as (work & out & Hprep & _ & _ & Hraise & Hok).
  pose proof (build_plot_raises parse_number to_datetime df sel work e
                Hvalid Hwf Hprep) as Hiff.
  split.
  - intros Hrun. split; [reflexivity|].
    destruct (build_plot to_datetime work sel) as [pre|e'] eqn:Hpre.
    + destruct (Hok pre eq_refl) as [_ Hrun']. rewrite Hrun' in Hrun.
      destruct (dropna_values _); discriminate.
    + rewrite (Hraise e' eq_refl) in Hrun. injection Hrun as ->.
      destruct (proj1 Hiff eq_refl) as (Hx & x & Hget & Hparse).
      split; [assumption|]. exists work, x. auto.
  - intros (_ & Hx & work' & x & Hprep' & Hget & Hparse).
    rewrite Hprep in Hprep'. injection Hprep' as <-.
    apply Hraise. apply Hiff. split; [assumption|]. eauto.
Qed.

(** The page of a selection whose X-axis column line 118 reads. *)
Lemma run_parses_ok (df : table) (sel : selection) :
  valid_selection df sel = true ->
  table_wf df = true ->
  x_parses parse_number to_datetime df sel ->
  exists events, run parse_number to_datetime np_sum to_csv df sel = Ok events.
Proof.
  intros Hvalid Hwf Hparses. destruct (df_empty df) eqn:Hempty.
  { exists [empty_warning]. unfold run. now rewrite Hempty. }
  destruct (valid_selection_inv _ _ Hvalid) as (Htin & _).
  destruct (get_col_in _ _ Htin) as [t [Ht _]].
  destruct (run_returns parse_number to_datetime np_sum to_csv df sel t
              Hvalid Hwf Hempty Ht Hparses)
    as (work & pre & out & _ & _ & _ & Hrun).
  rewrite Hrun. destruct (dropna_values _); eauto.
Qed.



(** X6. A row has a Celsius temperature exactly when its reading is a
    number: the conversion from Fahrenheit turns no number into a missing
    value and no missing value into a number. So, for a table with rows, the
    error of line 127 is shown only when the coerced temperature column
    holds no number, under either unit, and it is shown whenever that is so
    and line 118 returns. *)
Theorem celsius_presence (df : table) (sel : selection) (t : series) :
  valid_selection df sel = true ->
  table_wf df = true ->
  get_col (temp_col sel) df = Ok t ->
  exists work c,
    prepare parse_number df sel = Ok work /\
    get_col "Temperature_C" work = Ok (Float64 c) /\
    (forall i, entry_isna (Float64 c) i
               = entry_isna (Float64 (numeric_values parse_number t)) i) /\
    (df_empty df = false ->
     run parse_number to_datetime np_sum to_csv df sel = Ok [no_data_error] ->
     all_missing (numeric_values parse_number t)) /\
    (df_empty df = false ->
     x_parses parse_number to_datetime df sel ->
     all_missing (numeric_values parse_number t) ->
     run parse_number to_datetime np_sum to_csv df sel = Ok [no_data_error]).
Proof.
  intros Hvalid Hwf Ht.
  destruct (prepare_ok parse_number df sel t Hvalid Ht) as (work & Hprep & Hc & _).
  exists work, (celsius_series (unit sel) (numeric_values parse_number t)).
  split; [assumption|]. split; [assumption|].
  split; [intros i; apply entry_isna_celsius|]. split.
  - intros Hempty Hrun. rewrite <- (all_missing_celsius_iff (unit sel)).
    destruct (run_cases parse_number to_datetime np_sum to_csv df sel t
                Hvalid Hwf Hempty Ht)
      as (w & out & _ & _ & _ & Hraise & Hok).
    destruct (build_plot to_datetime w sel) as [pre|e] eqn:Hpre.
    + destruct (Hok pre eq_refl) as [_ Hrun']. rewrite Hrun' in Hrun.
      destruct (dropna_values (celsius_series (unit sel)
                                 (numeric_values parse_number t))) eqn:Hv.
      * now apply dropna_values_nil.
      * discriminate.
    + rewrite (Hraise e eq_refl) in Hrun. discriminate.
  - intros Hempty Hparses Hall.
    rewrite <- (all_missing_celsius_iff (unit sel)) in Hall.
    apply dropna_values_nil in Hall.
    destruct (run_returns parse_number to_datetime np_sum to_csv df sel t
                Hvalid Hwf Hempty Ht Hparses)
      as (w & pre & out & _ & _ & _ & Hrun).
    now rewrite Hrun, Hall.
Qed.

(** X7. The list of temperatures under the chart holds the Celsius values
    that are there, in the order of the rows, up to the first 1000 of them:
    it has no missing value and at most 1000 entries, and it is all of the
    values when they are at most 1000. *)
Theorem temperature_list_spec (df : table) (sel : selection) (t : series)
  (events : list ui_event) (l : list float) :
  valid_selection df sel = true ->
  table_wf df = true ->
  get_col (temp_col sel) df = Ok t ->
  run parse_number to_datetime np_sum to_csv df sel = Ok events ->
  In (TemperatureList l) events ->
  l = firstn 1000
        (dropna_values (celsius_series (unit sel) (numeric_values parse_number t))) /\
  List.length l <= 1000 /\
  (forall f, In f l -> PrimFloat.is_nan f = false) /\
  (List.length
     (dropna_values (celsius_series (unit sel) (numeric_values parse_number t)))
   <= 1000 ->
   l = dropna_values (celsius_series (unit sel) (numeric_values parse_number t))).
Proof.
  intros Hvalid Hwf Ht Hrun Hin.
  destruct (run_ok_inv parse_number to_datetime np_sum to_csv df sel t events
              Hvalid Hwf Ht Hrun)
    as [-> | [-> | (_ & work & pre & out & _ & _ & _ & Hkeep & ->)]].
  - destruct Hin as [H | []]. discriminate.
  - destruct Hin as [H | []]. discriminate.
  - apply in_dashboard_list in Hin. rewrite Hkeep in Hin. subst l.
    split; [reflexivity|]. split; [apply firstn_le_length|]. split.
    + intros f Hf.
      apply (dropna_values_number
               (celsius_series (unit sel) (numeric_values parse_number t)) f).
      rewrite <- (firstn_skipn 1000 (dropna_values _)).
      apply in_or_app. now left.
    + intros Hlen. now apply firstn_all2.
Qed.

(** X8. The minimum and the maximum the page shows are Celsius values of
    rows of the table, no Celsius value that is there is below the minimum
    and none is above the maximum. *)
Theorem min_max_metrics (df : table) (sel : selection) (t : series)
  (events : list ui_event) :
  valid_selection df sel = true ->
  table_wf df = true ->
  get_col (temp_col sel) df = Ok t ->
  run parse_number to_datetime np_sum to_csv df sel = Ok events ->
  (forall m,
      In (Metric "Min Temp (°C)" m) events ->
      In m (dropna_values (celsius_series (unit sel)
                             (numeric_values parse_number t))) /\
      forall y,
        In y (dropna_values (celsius_series (unit sel)
                               (numeric_values parse_number t))) ->
        (y <? m)%float = false) /\
  (forall m,
      In (Metric "Max Temp (°C)" m) events ->
      In m (dropna_values (celsius_series (unit sel)
                             (numeric_values parse_number t))) /\
      forall y,
        In y (dropna_values (celsius_series (unit sel)
                               (numeric_values parse_number t))) ->
        (m <? y)%float = false).
Proof.
  intros Hvalid Hwf Ht Hrun.
  destruct (run_ok_inv parse_number to_datetime np_sum to_csv df sel t events
              Hvalid Hwf Ht Hrun)
    as [-> | [-> | (Hsome & work & pre & out & _ & _ & _ & Hkeep & ->)]].
  - split; intros m [H | []]; discriminate.
  - split; intros m [H | []]; discriminate.
  - destruct (smin_smax_ext _ _ Hkeep) as [Emin Emax].
    destruct (smin_smax_bounds _ Hsome) as (Hmin & Hmax & Hbound).
    split; intros m Hin; apply in_dashboard_metric in Hin;
      destruct Hin as [[Hn _] | [[Hn ->] | [Hn ->]]]; try discriminate;
      rewrite ?Emin, ?Emax;
      (split; [assumption|]); intros y Hy; now apply Hbound.
Qed.

End SessionExtras.

(** ** The chart frame *)

Lemma pick_in_range {A : Type} (d : A) (l : list A) (ks : list nat) :
  (forall k, In k ks -> k < List.length l) ->
  pick l ks = map (fun k => nth k l d) ks.
Proof.
  unfold pick. induction ks as [|k ks IH]; intros Hks; [reflexivity|].
  cbn [flat_map map].
  rewrite (nth_error_nth' l d) by (apply Hks; now left).
  cbn [app]. f_equal. apply IH. intros k' Hk'. apply Hks. now right.
Qed.

Lemma pick_map_seq {A : Type} (f : nat -> A) (n : nat) (ks : list nat) :
  (forall k, In k ks -> k < n) ->
  pick (map f (seq 0 n)) ks = map f ks.
Proof.
  intros Hks. rewrite (pick_in_range (f 0)) by (now rewrite length_map, length_seq).
  apply map_ext_in. intros k Hk.
  rewrite (nth_indep _ (f 0) (f (nth k (seq 0 n) 0)))
    by (rewrite length_map, length_seq; auto).
  rewrite map_nth, seq_nth by auto. reflexivity.
Qed.

Lemma kept_rows_in_range (f : frame) (k : nat) :
  In k (kept_rows f) -> k < frame_nrows f.
Proof. intros H. now apply in_kept_rows in H. Qed.

Lemma select_all_true {A : Type} (p : nat -> bool) (n : nat) :
  forall (a : nat) (l : list A),
    (forall i, a <= i < a + n -> p i = true) ->
    List.length l <= n ->
    select (map p (seq a n)) l = l.
Proof.
  induction n as [|n IH]; intros a l Hp Hlen.
  - destruct l; [reflexivity | cbn [List.length] in Hlen; lia].
  - destruct l as [|x l]; [reflexivity|]. cbn [seq map select].
    rewrite (Hp a) by lia. f_equal. apply IH.
    + intros i Hi. apply Hp. lia.
    + cbn [List.length] in Hlen. lia.
Qed.

Lemma items_series_pick (s : series) (ks : list nat) :
  items (series_pick s ks) = pick (items s) ks.
Proof.
  destruct s as [v|v]; cbn [series_pick items]; [|reflexivity].
  unfold pick. induction ks as [|k ks IH]; [reflexivity|].
  cbn [flat_map]. rewrite map_app, IH. f_equal.
  rewrite nth_error_map. now destruct (nth_error v k).
Qed.

Lemma length_pick_in_range {A : Type} (l : list A) (ks : list nat) :
  (forall k, In k ks -> k < List.length l) ->
  List.length (pick l ks) = List.length ks.
Proof.
  intros Hks. destruct l as [|d l].
  - destruct ks as [|k ks]; [reflexivity|].
    specialize (Hks k (or_introl eq_refl)). cbn [List.length] in Hks. lia.
  - rewrite (pick_in_range d) by assumption. apply length_map.
Qed.

Lemma entry_isna_series_pick (s : series) (ks : list nat) (j k : nat) :
  (forall k', In k' ks -> k' < series_len s) ->
  nth_error ks j = Some k ->
  entry_isna (series_pick s ks) j = entry_isna s k.
Proof.
  intros Hks Hj. unfold entry_isna. rewrite items_series_pick.
  assert (Hk : k < List.length (items s)).
  { apply Hks. now apply nth_error_In in Hj. }
  destruct (nth_error (items s) k) as [x|] eqn:Hx;
    [|apply nth_error_None in Hx; lia].
  rewrite (pick_in_range x) by assumption.
  rewrite nth_error_map, Hj. cbn [option_map].
  now rewrite (nth_error_nth _ _ x Hx).
Qed.

Lemma forallb_map_ext {A B : Type} (p : B -> bool) (q : A -> bool)
  (f : A -> B) (l : list A) :
  (forall x, In x l -> p (f x) = q x) ->
  forallb p (map f l) = forallb q l.
Proof.
  induction l as [|x l IH]; intros H; [reflexivity|]. cbn [map forallb].
  rewrite (H x (or_introl eq_refl)), IH; [reflexivity|].
  intros y Hy. apply H. now right.
Qed.

(** A frame whose columns have one entry per row. *)
Lemma dropna_all_no_empty_row (f : frame) :
  (forall c, In c (data f) -> series_len (snd c) = frame_nrows f) ->
  frame_nrows (dropna_all f) = List.length (kept_rows f) /\
  (forall c, In c (data (dropna_all f)) ->
             series_len (snd c) = frame_nrows (dropna_all f)) /\
  (forall j, j < frame_nrows (dropna_all f) ->
             row_all_na (data (dropna_all f)) j = false).
Proof.
  intros Hwf. destruct (dropna_all_pick f) as [Hidx Hdata].
  assert (Hn : frame_nrows (dropna_all f) = List.length (kept_rows f)).
  { unfold frame_nrows at 1. rewrite Hidx. apply length_pick_in_range.
    apply kept_rows_in_range. }
  split; [assumption|]. split.
  - intros c Hc. rewrite Hdata in Hc. apply in_map_iff in Hc.
    destruct Hc as [c0 [<- Hc0]]. cbn [snd]. rewrite Hn.
    unfold series_len. rewrite items_series_pick.
    apply length_pick_in_range. intros k Hk.
    fold (series_len (snd c0)). rewrite (Hwf c0 Hc0).
    now apply kept_rows_in_range.
  - intros j Hj. rewrite Hn in Hj.
    destruct (nth_error (kept_rows f) j) as [k|] eqn:Hk;
      [|apply nth_error_None in Hk; lia].
    assert (Hrow : row_all_na (data f) k = false).
    { apply nth_error_In in Hk. now apply in_kept_rows in Hk. }
    rewrite <- Hrow. unfold row_all_na. rewrite Hdata.
    apply forallb_map_ext. intros c Hc. cbn [snd].
    apply entry_isna_series_pick; [|assumption].
    intros k' Hk'. rewrite (Hwf c Hc). now apply kept_rows_in_range.
Qed.

Lemma series_select_all_true (p : nat -> bool) (n : nat) (s : series) :
  (forall i, i < n -> p i = true) ->
  series_len s <= n ->
  series_select (map p (seq 0 n)) s = s.
Proof.
  intros Hp Hlen. destruct s as [v|v]; cbn [series_select]; f_equal;
    apply select_all_true; try (intros i Hi; apply Hp; lia).
  - now rewrite series_len_float64 in Hlen.
  - exact Hlen.
Qed.

Lemma dropna_all_fixed (f : frame) :
  (forall c, In c (data f) -> series_len (snd c) = frame_nrows f) ->
  (forall j, j < frame_nrows f -> row_all_na (data f) j = false) ->
  dropna_all f = f.
Proof.
  intros Hwf Hrows. destruct f as [idx name dat]. unfold dropna_all, keep_mask.
  cbn [index index_name data] in *. unfold frame_nrows in *. cbn [index] in *.
  assert (Hp : forall i, i < List.length idx ->
                         negb (row_all_na dat i) = true).
  { intros i Hi. now rewrite Hrows. }
  f_equal.
  - apply select_all_true; [intros i Hi; apply Hp; lia | lia].
  - rewrite <- (map_id dat) at 2. apply map_ext_in. intros [n s] Hc.
    cbn [fst snd]. f_equal. apply series_select_all_true; [assumption|].
    pose proof (Hwf (n, s) Hc) as Hlen. cbn [snd] in Hlen. lia.
Qed.



Section SessionChart.

Variable parse_number : string -> option float.
Variable to_datetime : series -> result (nat -> option Z).

Lemma chart_frame_ok (df : table) (sel : selection) (t : series)
  (work : table) (pre : frame) :
  valid_selection df sel = true ->
  table_wf df = true ->
  get_col (temp_col sel) df = Ok t ->
  prepare parse_number df sel = Ok work ->
  build_plot to_datetime work sel = Ok pre ->
  exists hum,
    get_col "Temperature_C" work
    = Ok (Float64 (celsius_series (unit sel) (numeric_values parse_number t))) /\
    data pre
    = plotted (Float64 (celsius_series (unit sel) (numeric_values parse_number t)))
              hum /\
    frame_nrows pre = nrows df /\
    (hum_col sel = "<none>" -> hum = None) /\
    (hum_col sel <> "<none>" ->
     exists h, hum = Some h /\ get_col (hum_col sel) work = Ok h) /\
    (forall c, In c (data pre) -> series_len (snd c) = frame_nrows pre) /\
    (forall n, n <> "Temperature_C" ->
               get_col n work = coerced_col parse_number df sel n).
Proof.
  intros Hvalid Hwf Ht Hprep Hpre.
  destruct (prepare_ok parse_number df sel t Hvalid Ht)
    as (w & Hw & Hc & _ & Hother).
  rewrite Hprep in Hw. injection Hw as <-.
  destruct (build_plot_shape parse_number to_datetime df sel work _ pre
              Hvalid Hwf Hprep Hc Hpre)
    as (hum & Hdata & Hn & Hnone & Hsome & _).
  exists hum. repeat (split; [assumption|]).
  split; [|assumption].
  pose proof (work_col_len parse_number df sel work Hvalid Hwf Hprep) as Hlen.
  intros c Hin. rewrite Hdata in Hin. rewrite Hn. unfold plotted in Hin.
  destruct Hin as [<- | Hin]; [apply (Hlen _ _ Hc)|].
  destruct (String.eqb_spec (hum_col sel) "<none>") as [E|E].
  - rewrite (Hnone E) in Hin. destruct Hin.
  - destruct (Hsome E) as (h & -> & Hh). destruct Hin as [<- | []].
    apply (Hlen _ _ Hh).
Qed.

(** The frame of a selection whose X-axis column line 118 reads. *)
Lemma chart_frame_returns (df : table) (sel : selection) :
  valid_selection df sel = true ->
  table_wf df = true ->
  x_parses parse_number to_datetime df sel ->
  exists t work pre,
    get_col (temp_col sel) df = Ok t /\
    prepare parse_number df sel = Ok work /\
    build_plot to_datetime work sel = Ok pre.
Proof.
  intros Hvalid Hwf Hparses.
  destruct (valid_selection_inv _ _ Hvalid) as (Htin & _).
  destruct (get_col_in _ _ Htin) as [t [Ht _]].
  destruct (prepare_ok parse_number df sel t Hvalid Ht) as (work & Hprep & _).
  destruct (build_plot_returns parse_number to_datetime df sel work
              Hvalid Hwf Hprep Hparses) as (pre & Hpre).
  exists t, work, pre. auto.
Qed.

(** X9. Every row of the chart's frame has a value to plot, and the frame
    has as many rows as the table has rows with one: dropping the empty rows
    of it again changes nothing. The frame is there when line 118 returns. *)
Theorem chart_rows_nonempty (df : table) (sel : selection) :
  valid_selection df sel = true ->
  table_wf df = true ->
  x_parses parse_number to_datetime df sel ->
  exists work pre,
    prepare parse_number df sel = Ok work /\
    build_plot to_datetime work sel = Ok pre /\
    frame_nrows (dropna_all pre) = List.length (kept_rows pre) /\
    (forall j, j < frame_nrows (dropna_all pre) ->
               row_all_na (data (dropna_all pre)) j = false) /\
    dropna_all (dropna_all pre) = dropna_all pre.
Proof.
  intros Hvalid Hwf Hparses.
  destruct (chart_frame_returns df sel Hvalid Hwf Hparses)
    as (t & work & pre & Ht & Hprep & Hpre).
  destruct (chart_frame_ok df sel t work pre Hvalid Hwf Ht Hprep Hpre)
    as (hum & _ & _ & _ & _ & _ & Hcols & _).
  destruct (dropna_all_no_empty_row pre Hcols) as (Hn & Hcols' & Hrows).
  exists work, pre. repeat (split; [assumption|]).
  now apply dropna_all_fixed.
Qed.

(** X10. Without an X-axis column the chart's rows are labelled with their
    row numbers in the table: the labels of the frame are the numbers of the
    rows that were kept, in order, and the index has no name. *)
Theorem default_index_spec (df : table) (sel : selection) :
  valid_selection df sel = true ->
  table_wf df = true ->
  x_col sel = "<index>" ->
  exists work pre,
    prepare parse_number df sel = Ok work /\
    build_plot to_datetime work sel = Ok pre /\
    index (dropna_all pre) = map Row (kept_rows pre) /\
    index_name (dropna_all pre) = None.
Proof.
  intros Hvalid Hwf Hx.
  destruct (chart_frame_returns df sel Hvalid Hwf (or_introl Hx))
    as (t & work & pre & Ht & Hprep & Hpre).
  destruct (prepare_ok parse_number df sel t Hvalid Ht) as (w & Hw & Hc & _).
  rewrite Hprep in Hw. injection Hw as <-.
  destruct (build_plot_shape parse_number to_datetime df sel work _ pre
              Hvalid Hwf Hprep Hc Hpre)
    as (hum & _ & Hn & _ & _ & Hdef & _).
  destruct (Hdef Hx) as (Hidx & Hname).
  exists work, pre. split; [assumption|]. split; [assumption|].
  split; [|exact Hname].
  destruct (dropna_all_pick pre) as [Hpick _]. rewrite Hpick, Hidx.
  apply pick_map_seq. intros k Hk. apply kept_rows_in_range in Hk.
  now rewrite Hn in Hk.
Qed.


(** X12. The chart plots the Celsius series under the name
    [Temperature (°C)] and, when a humidity column is selected, what
    [pd.to_numeric] reads in that column under the name [Humidity (%)], and
    nothing else. A humidity column named [Temperature_C] is the exception:
    it is plotted with the Celsius series, which that name holds by then.
    The frame is there when line 118 returns. *)
Theorem chart_series_spec (df : table) (sel : selection) (t : series) :
  valid_selection df sel = true ->
  table_wf df = true ->
  get_col (temp_col sel) df = Ok t ->
  x_parses parse_number to_datetime df sel ->
  exists work pre,
    prepare parse_number df sel = Ok work /\
    build_plot to_datetime work sel = Ok pre /\
    get_col "Temperature (°C)" (data pre)
    = Ok (Float64 (celsius_series (unit sel) (numeric_values parse_number t))) /\
    (hum_col sel = "<none>" -> columns (data pre) = ["Temperature (°C)"]) /\
    (hum_col sel <> "<none>" ->
     columns (data pre) = ["Temperature (°C)"; "Humidity (%)"] /\
     (hum_col sel = "Temperature_C" ->
      get_col "Humidity (%)" (data pre)
      = Ok (Float64 (celsius_series (unit sel) (numeric_values parse_number t)))) /\
     (forall h, hum_col sel <> "Temperature_C" ->
                get_col (hum_col sel) df = Ok h ->
                get_col "Humidity (%)" (data pre)
                = Ok (Float64 (numeric_values parse_number h)))).
Proof.
  intros Hvalid Hwf Ht Hparses.
  destruct (chart_frame_returns df sel Hvalid Hwf Hparses)
    as (t' & work & pre & Ht' & Hprep & Hpre).
  destruct (chart_frame_ok df sel t work pre Hvalid Hwf Ht Hprep Hpre)
    as (hum & Hc & Hdata & _ & Hnone & Hsome & _ & Hother).
  exists work, pre. split; [assumption|]. split; [assumption|].
  rewrite Hdata. split; [reflexivity|]. split.
  - intros E. now rewrite (Hnone E).
  - intros E. destruct (Hsome E) as (h & -> & Hh).
    split; [reflexivity|]. split.
    + intros Eh. rewrite Eh, Hc in Hh. injection Hh as <-. reflexivity.
    + intros h0 Eh Hh0. rewrite (Hother _ Eh) in Hh. unfold coerced_col in Hh.
      assert (Hsel : (hum_col sel =? temp_col sel)
                     || negb (hum_col sel =? "<none>")
                        && (hum_col sel =? hum_col sel) = true).
      { apply selected_col_iff. right. auto. }
      rewrite Hsel, Hh0 in Hh. cbn [bind] in Hh. injection Hh as <-.
      unfold plotted. cbn [get_col]. now rewrite to_numeric_values.
Qed.

End SessionChart.

(** ** What the choices change *)

Section Choices.

Variable lower : string -> string.
Variable parse_number : string -> option float.
Variable to_datetime : series -> result (nat -> option Z).
Variable np_sum : list float -> float.
Variable to_csv : table -> string.




(** X15. For a table with rows, the choices the boxes start with are choices
    the boxes offer for this table. The page they give ends without an
    exception when line 118 returns, and so whenever no column is guessed
    for the X axis; an exception that ends it is one [pd.to_datetime]
    raises on the guessed X-axis column. *)
Theorem default_page_renders (df : table) :
  df_empty df = false ->
  table_wf df = true ->
  exists sel,
    default_selection lower (columns df) = Some sel /\
    valid_selection df sel = true /\
    (x_parses parse_number to_datetime df sel ->
     exists events,
       run parse_number to_datetime np_sum to_csv df sel = Ok events) /\
    (x_guess lower (columns df) = None ->
     exists events,
       run parse_number to_datetime np_sum to_csv df sel = Ok events) /\
    (forall e,
        run parse_number to_datetime np_sum to_csv df sel = Raise e ->
        x_guess lower (columns df) = Some (x_col sel) /\
        exists work x,
          prepare parse_number df sel = Ok work /\
          get_col (x_col sel) work = Ok x /\
          to_datetime x = Raise e).
Proof.
  intros Hempty Hwf.
  assert (Hne : columns df <> []).
  { destruct df; [discriminate|]. discriminate. }
  destruct (default_selection_ok lower (columns df) Hne)
    as (ti & hi & xi & sel & _ & _ & Hsel & (Ht & Hh & Hx) & Hg).
  assert (Hvalid : valid_selection df sel = true).
  { unfold valid_selection. rewrite !andb_true_iff, !existsb_eqb_in.
    repeat split; try assumption.
    destruct Hg as (_ & _ & _ & _ & _ & _ & ->). now left. }
  destruct (get_col_in _ _ Ht) as [t [Hget _]].
  destruct Hg as (_ & _ & _ & _ & Hxs & Hxn & _).
  exists sel. split; [assumption|]. split; [assumption|].
  split; [|split].
  - now apply run_parses_ok.
  - intros Hnone. apply run_parses_ok; try assumption.
    left. now apply Hxn.
  - intros e Hrun.
    apply (run_raises parse_number to_datetime np_sum to_csv df sel t e
             Hvalid Hwf Hget) in Hrun.
    destruct Hrun as (_ & Hxi & Hex). split; [|exact Hex].
    destruct (x_guess lower (columns df)) as [c|] eqn:Hguess.
    + now rewrite (Hxs c eq_refl).
    + now specialize (Hxn eq_refl).
Qed.

End Choices.

(** ** The further properties at the sample inputs *)


Lemma celsius_presence_witness :
  valid_selection dated_df dated_sel = true /\
  table_wf dated_df = true /\
  get_col (temp_col dated_sel) dated_df = Ok (Float64 [32; 212]%float) /\
  (exists work c,
    prepare sample_parse dated_df dated_sel = Ok work /\
    get_col "Temperature_C" work = Ok (Float64 c) /\
    (forall i, entry_isna (Float64 c) i
               = entry_isna (Float64 (numeric_values sample_parse (Float64 [32; 212]%float))) i) /\
    (df_empty dated_df = false ->
     run sample_parse sample_to_datetime fsum sample_to_csv dated_df dated_sel = Ok [no_data_error] ->
     all_missing (numeric_values sample_parse (Float64 [32; 212]%float))) /\
    (df_empty dated_df = false ->
     x_parses sample_parse sample_to_datetime dated_df dated_sel ->
     all_missing (numeric_values sample_parse (Float64 [32; 212]%float)) ->
     run sample_parse sample_to_datetime fsum sample_to_csv dated_df dated_sel = Ok [no_data_error])).
Proof.
  split; [solve [reflexivity | discriminate | (cbn; tauto) | (left; reflexivity)
          | (right; eexists _, _, _; split; [reflexivity | split; reflexivity])]|].
  split; [solve [reflexivity | discriminate | (cbn; tauto) | (left; reflexivity)
          | (right; eexists _, _, _; split; [reflexivity | split; reflexivity])]|].
  split; [solve [reflexivity | discriminate | (cbn; tauto) | (left; reflexivity)
          | (right; eexists _, _, _; split; [reflexivity | split; reflexivity])]|].
  apply (celsius_presence sample_parse sample_to_datetime fsum sample_to_csv dated_df dated_sel (Float64 [32; 212]%float));
    solve [reflexivity | discriminate | (cbn; tauto) | (left; reflexivity)
          | (right; eexists _, _, _; split; [reflexivity | split; reflexivity])].
Defined.

Lemma temperature_list_spec_witness :
  valid_selection dated_df dated_sel = true /\
  table_wf dated_df = true /\
  get_col (temp_col dated_sel) dated_df = Ok (Float64 [32; 212]%float) /\
  run sample_parse sample_to_datetime fsum sample_to_csv dated_df dated_sel = Ok dated_events /\
  In (TemperatureList [0; 100]%float) dated_events /\
  ([0; 100]%float = firstn 1000
        (dropna_values (celsius_series (unit dated_sel) (numeric_values sample_parse (Float64 [32; 212]%float)))) /\
  List.length [0; 100]%float <= 1000 /\
  (forall f, In f [0; 100]%float -> PrimFloat.is_nan f = false) /\
  (List.length
     (dropna_values (celsius_series (unit dated_sel) (numeric_values sample_parse (Float64 [32; 212]%float))))
   <= 1000 ->
   [0; 100]%float = dropna_values (celsius_series (unit dated_sel) (numeric_values sample_parse (Float64 [32; 212]%float))))).
Proof.
  split; [solve [reflexivity | discriminate | (cbn; tauto) | (left; reflexivity)
          | (right; eexists _, _, _; split; [reflexivity | split; reflexivity])]|].
  split; [solve [reflexivity | discriminate | (cbn; tauto) | (left; reflexivity)
          | (right; eexists _, _, _; split; [reflexivity | split; reflexivity])]|].
  split; [solve [reflexivity | discriminate | (cbn; tauto) | (left; reflexivity)
          | (right; eexists _, _, _; split; [reflexivity | split; reflexivity])]|].
  split; [solve [reflexivity | discriminate | (cbn; tauto) | (left; reflexivity)
          | (right; eexists _, _, _; split; [reflexivity | split; reflexivity])]|].
  split; [solve [reflexivity | discriminate | (cbn; tauto) | (left; reflexivity)
          | (right; eexists _, _, _; split; [reflexivity | split; reflexivity])]|].
  apply (temperature_list_spec sample_parse sample_to_datetime fsum sample_to_csv dated_df dated_sel (Float64 [32; 212]%float) dated_events [0; 100]%float);
    solve [reflexivity | discriminate | (cbn; tauto) | (left; reflexivity)
          | (right; eexists _, _, _; split; [reflexivity | split; reflexivity])].
Defined.

Lemma min_max_metrics_witness :
  valid_selection dated_df dated_sel = true /\
  table_wf dated_df = true /\
  get_col (temp_col dated_sel) dated_df = Ok (Float64 [32; 212]%float) /\
  run sample_parse sample_to_datetime fsum sample_to_csv dated_df dated_sel = Ok dated_events /\
  ((forall m,
      In (Metric "Min Temp (°C)" m) dated_events ->
      In m (dropna_values (celsius_series (unit dated_sel)
                             (numeric_values sample_parse (Float64 [32; 212]%float)))) /\
      forall y,
        In y (dropna_values (celsius_series (unit dated_sel)
                               (numeric_values sample_parse (Float64 [32; 212]%float)))) ->
        (y <? m)%float = false) /\
  (forall m,
      In (Metric "Max Temp (°C)" m) dated_events ->
      In m (dropna_values (celsius_series (unit dated_sel)
                             (numeric_values sample_parse (Float64 [32; 212]%float)))) /\
      forall y,
        In y (dropna_values (celsius_series (unit dated_sel)
                               (numeric_values sample_parse (Float64 [32; 212]%float)))) ->
        (m <? y)%float = false)).
Proof.
  split; [solve [reflexivity | discriminate | (cbn; tauto) | (left; reflexivity)
          | (right; eexists _, _, _; split; [reflexivity | split; reflexivity])]|].
  split; [solve [reflexivity | discriminate | (cbn; tauto) | (left; reflexivity)
          | (right; eexists _, _, _; split; [reflexivity | split; reflexivity])]|].
  split; [solve [reflexivity | discriminate | (cbn; tauto) | (left; reflexivity)
          | (right; eexists _, _, _; split; [reflexivity | split; reflexivity])]|].
  split; [solve [reflexivity | discriminate | (cbn; tauto) | (left; reflexivity)
          | (right; eexists _, _, _; split; [reflexivity | split; reflexivity])]|].
  apply (min_max_metrics sample_parse sample_to_datetime fsum sample_to_csv dated_df dated_sel (Float64 [32; 212]%float) dated_events);
    solve [reflexivity | discriminate | (cbn; tauto) | (left; reflexivity)
          | (right; eexists _, _, _; split; [reflexivity | split; reflexivity])].
Defined.

Lemma chart_rows_nonempty_witness :
  valid_selection gaps_df gaps_sel = true /\
  table_wf gaps_df = true /\
  x_parses sample_parse sample_to_datetime gaps_df gaps_sel /\
  (exists work pre,
    prepare sample_parse gaps_df gaps_sel = Ok work /\
    build_plot sample_to_datetime work gaps_sel = Ok pre /\
    frame_nrows (dropna_all pre) = List.length (kept_rows pre) /\
    (forall j, j < frame_nrows (dropna_all pre) ->
               row_all_na (data (dropna_all pre)) j = false) /\
    dropna_all (dropna_all pre) = dropna_all pre).
Proof.
  split; [solve [reflexivity | discriminate | (cbn; tauto) | (left; reflexivity)
          | (right; eexists _, _, _; split; [reflexivity | split; reflexivity])]|].
  split; [solve [reflexivity | discriminate | (cbn; tauto) | (left; reflexivity)
          | (right; eexists _, _, _; split; [reflexivity | split; reflexivity])]|].
  split; [solve [reflexivity | discriminate | (cbn; tauto) | (left; reflexivity)
          | (right; eexists _, _, _; split; [reflexivity | split; reflexivity])]|].
  apply (chart_rows_nonempty sample_parse sample_to_datetime gaps_df gaps_sel);
    solve [reflexivity | discriminate | (cbn; tauto) | (left; reflexivity)
          | (right; eexists _, _, _; split; [reflexivity | split; reflexivity])].
Defined.

Lemma default_index_spec_witness :
  valid_selection gaps_df gaps_sel = true /\
  table_wf gaps_df = true /\
  x_col gaps_sel = "<index>" /\
  (exists work pre,
    prepare sample_parse gaps_df gaps_sel = Ok work /\
    build_plot sample_to_datetime work gaps_sel = Ok pre /\
    index (dropna_all pre) = map Row (kept_rows pre) /\
    index_name (dropna_all pre) = None).
Proof.
  split; [solve [reflexivity | discriminate | (cbn; tauto) | (left; reflexivity)
          | (right; eexists _, _, _; split; [reflexivity | split; reflexivity])]|].
  split; [solve [reflexivity | discriminate | (cbn; tauto) | (left; reflexivity)
          | (right; eexists _, _, _; split; [reflexivity | split; reflexivity])]|].
  split; [solve [reflexivity | discriminate | (cbn; tauto) | (left; reflexivity)
          | (right; eexists _, _, _; split; [reflexivity | split; reflexivity])]|].
  apply (default_index_spec sample_parse sample_to_datetime gaps_df gaps_sel);
    solve [reflexivity | discriminate | (cbn; tauto) | (left; reflexivity)
          | (right; eexists _, _, _; split; [reflexivity | split; reflexivity])].
Defined.


Lemma chart_series_spec_witness :
  valid_selection dated_df dated_sel = true /\
  table_wf dated_df = true /\
  get_col (temp_col dated_sel) dated_df = Ok (Float64 [32; 212]%float) /\
  x_parses sample_parse sample_to_datetime dated_df dated_sel /\
  (exists work pre,
    prepare sample_parse dated_df dated_sel = Ok work /\
    build_plot sample_to_datetime work dated_sel = Ok pre /\
    get_col "Temperature (°C)" (data pre)
    = Ok (Float64 (celsius_series (unit dated_sel) (numeric_values sample_parse (Float64 [32; 212]%float)))) /\
    (hum_col dated_sel = "<none>" -> columns (data pre) = ["Temperature (°C)"]) /\
    (hum_col dated_sel <> "<none>" ->
     columns (data pre) = ["Temperature (°C)"; "Humidity (%)"] /\
     (hum_col dated_sel = "Temperature_C" ->
      get_col "Humidity (%)" (data pre)
      = Ok (Float64 (celsius_series (unit dated_sel) (numeric_values sample_parse (Float64 [32; 212]%float))))) /\
     (forall h, hum_col dated_sel <> "Temperature_C" ->
                get_col (hum_col dated_sel) dated_df = Ok h ->
                get_col "Humidity (%)" (data pre)
                = Ok (Float64 (numeric_values sample_parse h))))).
Proof.
  split; [solve [reflexivity | discriminate | (cbn; tauto) | (left; reflexivity)
          | (right; eexists _, _, _; split; [reflexivity | split; reflexivity])]|].
  split; [solve [reflexivity | discriminate | (cbn; tauto) | (left; reflexivity)
          | (right; eexists _, _, _; split; [reflexivity | split; reflexivity])]|].
  split; [solve [reflexivity | discriminate | (cbn; tauto) | (left; reflexivity)
          | (right; eexists _, _, _; split; [reflexivity | split; reflexivity])]|].
  split; [solve [reflexivity | discriminate | (cbn; tauto) | (left; reflexivity)
          | (right; eexists _, _, _; split; [reflexivity | split; reflexivity])]|].
  apply (chart_series_spec sample_parse sample_to_datetime dated_df dated_sel (Float64 [32; 212]%float));
    solve [reflexivity | discriminate | (cbn; tauto) | (left; reflexivity)
          | (right; eexists _, _, _; split; [reflexivity | split; reflexivity])].
Defined.



Lemma default_page_renders_witness :
  df_empty dated_df = false /\
  table_wf dated_df = true /\
  (exists sel,
    default_selection Str.ascii_lower (columns dated_df) = Some sel /\
    valid_selection dated_df sel = true /\
    (x_parses sample_parse sample_to_datetime dated_df sel ->
     exists events,
       run sample_parse sample_to_datetime fsum sample_to_csv dated_df sel = Ok events) /\
    (x_guess Str.ascii_lower (columns dated_df) = None ->
     exists events,
       run sample_parse sample_to_datetime fsum sample_to_csv dated_df sel = Ok events) /\
    (forall e,
        run sample_parse sample_to_datetime fsum sample_to_csv dated_df sel = Raise e ->
        x_guess Str.ascii_lower (columns dated_df) = Some (x_col sel) /\
        exists work x,
          prepare sample_parse dated_df sel = Ok work /\
          get_col (x_col sel) work = Ok x /\
          sample_to_datetime x = Raise e)).
Proof.
  split; [solve [reflexivity | discriminate | (cbn; tauto) | (left; reflexivity)
          | (right; eexists _, _, _; split; [reflexivity | split; reflexivity])]|].
  split; [solve [reflexivity | discriminate | (cbn; tauto) | (left; reflexivity)
          | (right; eexists _, _, _; split; [reflexivity | split; reflexivity])]|].
  apply (default_page_renders Str.ascii_lower sample_parse sample_to_datetime fsum sample_to_csv dated_df);
    solve [reflexivity | discriminate | (cbn; tauto) | (left; reflexivity)
          | (right; eexists _, _, _; split; [reflexivity | split; reflexivity])].
Defined.

(** The labels of the chart of [dated_df]: a timestamp for the date that is
    read, the text for the one that is not. *)
Example x_axis_labels_dated :
  exists work pre,
    prepare sample_parse dated_df dated_sel = Ok work /\
    build_plot sample_to_datetime work dated_sel = Ok pre /\
    index pre = [Time 1704067200; Raw (Str "n/a")] /\
    x_index (fun _ => None) (Object [Str "n/a"; Flt PrimFloat.nan])
    = [Raw (Str "n/a"); Missing].
Proof. eexists _, _. repeat split. Qed.
